(** * vibe-jam: the Ghostty theme generator ([main.py])

    A shallow embedding of the script's two pieces of logic, the converter
    from the generated theme JSON to Ghostty's flat [key = value] format and
    the writer that falls back to [sudo] on a permission failure, together
    with the interactive steps around them ([get_theme_name],
    [generate_ghostty_theme_json], [main]).

    Conventions of the embedding.
    - A Python [str] is a [string]; the text handled is ASCII, so that
      [str.strip], [str.lower] and [str.isalnum] are their ASCII versions.
    - A parsed JSON value is a [json]; a Python [dict] is an association list
      in insertion order, read with [dict_get] (Python dicts have unique
      keys, [dict_wf]).  JSON numbers with a fraction or an exponent are
      outside the embedding.
    - Effects are threaded through a state-and-exception monad [M] over a
      [World]: the lines waiting on standard input, the files on disk and the
      chronological trace of what the process did.  What the operating
      system, [sudo] and the model provider answer is given by an [Env]:
      [os.makedirs] and [open] may fail with any [OSError], a command may
      exit with any status and change the files in any way.
    - [json.loads] and [json.dump] are parameters of the script.
    - [subprocess.run] always returns an exit status, a temporary file can
      always be created, and [os.remove] fails only on a missing file.
    - The error of [env_open_w] is the one [open(path, "w")] itself raises,
      before the file is created or truncated; once a file is open, writing
      to it and closing it succeed. *)

From Stdlib Require Import ZArith Ascii String DecimalString List Lia.
From stdpp Require Import gmap strings list.

Set Warnings "-register-all".
#[local] Arguments String.append !s1 s2 : simpl nomatch.

(** ** Python strings *)

Module Py.

#[local] Open Scope char_scope.

(** The double quote character, which a Rocq literal cannot hold directly. *)
Definition dquote : ascii := "034".

Definition char_between (lo hi : nat) (c : ascii) : bool :=
  (lo <=? nat_of_ascii c)%nat && (nat_of_ascii c <=? hi)%nat.

(** [str.isspace] on one ASCII character: tab, line feed, vertical tab, form
    feed, carriage return, the four separators 0x1c-0x1f and the space. *)
Definition isspace (c : ascii) : bool :=
  char_between 9 13 c || char_between 28 32 c.

Definition isdigit (c : ascii) : bool := char_between 48 57 c.
Definition isupper (c : ascii) : bool := char_between 65 90 c.
Definition islower (c : ascii) : bool := char_between 97 122 c.
(** [c.isalnum()], on an ASCII character *)
Definition isalnum (c : ascii) : bool := isdigit c || isupper c || islower c.

Definition lower_char (c : ascii) : ascii :=
  if isupper c then ascii_of_nat (nat_of_ascii c + 32) else c.

Fixpoint map_chars (f : ascii -> ascii) (s : string) : string :=
  match s with
  | EmptyString => EmptyString
  | String c s' => String (f c) (map_chars f s')
  end.

(** [s.lower()], on ASCII text *)
Definition lower (s : string) : string := map_chars lower_char s.

Fixpoint lstrip (s : string) : string :=
  match s with
  | EmptyString => EmptyString
  | String c s' => if isspace c then lstrip s' else s
  end.

Fixpoint rstrip (s : string) : string :=
  match s with
  | EmptyString => EmptyString
  | String c s' =>
      match rstrip s' with
      | EmptyString => if isspace c then EmptyString else String c EmptyString
      | r => String c r
      end
  end.

(** [s.strip()], on ASCII text *)
Definition strip (s : string) : string := rstrip (lstrip s).

(** [c in s] for a one-character [c] *)
Fixpoint char_in (c : ascii) (s : string) : bool :=
  match s with
  | EmptyString => false
  | String c' s' => Ascii.eqb c c' || char_in c s'
  end.

(** [sub in s] *)
Fixpoint contains (sub s : string) : bool :=
  String.prefix sub s ||
  match s with
  | EmptyString => false
  | String _ s' => contains sub s'
  end.

(** [sep.join(l)] *)
Fixpoint join (sep : string) (l : list string) : string :=
  match l with
  | [] => ""
  | [x] => x
  | x :: rest => x +:+ sep +:+ join sep rest
  end.

(** [str(i)] for a non-negative [int] *)
Definition str_nat (i : nat) : string :=
  NilZero.string_of_uint (Nat.to_uint i).

(** [str(z)] for an [int] *)
Definition str_int (z : Z) : string :=
  NilZero.string_of_int (Z.to_int z).

Definition hex_digit (n : nat) : ascii :=
  if (n <? 10)%nat then ascii_of_nat (48 + n) else ascii_of_nat (87 + n).

(** One character of [repr(s)], given the quote character chosen. *)
Definition repr_char (quote c : ascii) : string :=
  if Ascii.eqb c quote || Ascii.eqb c "\" then String "\" (String c "")
  else if Ascii.eqb c "009" then "\t"
  else if Ascii.eqb c "010" then "\n"
  else if Ascii.eqb c "013" then "\r"
  else if (nat_of_ascii c <? 32)%nat || Ascii.eqb c "127" then
    String "\" (String "x"
      (String (hex_digit (nat_of_ascii c / 16))
        (String (hex_digit (nat_of_ascii c mod 16)) "")))
  else String c "".

Fixpoint repr_chars (quote : ascii) (s : string) : string :=
  match s with
  | EmptyString => EmptyString
  | String c s' => repr_char quote c +:+ repr_chars quote s'
  end.

(** [repr(s)] of a string: single quotes, unless the string holds a single
    quote and no double quote. *)
Definition repr_str (s : string) : string :=
  let quote := if char_in "'" s && negb (char_in dquote s) then dquote else "'" in
  String quote (repr_chars quote s) +:+ String quote "".

End Py.

(** ** Parsed JSON, as [json.loads] returns it *)

Inductive json : Type :=
| JNull
| JBool (b : bool)
| JInt (z : Z)
| JStr (s : string)
| JArr (l : list json)
| JObj (m : list (string * json)).

(** A Python [dict] with [str] keys, in insertion order. *)
Abbreviation dict := (list (string * json)).

Fixpoint dict_get (m : dict) (k : string) : option json :=
  match m with
  | [] => None
  | (k', v) :: rest => if String.eqb k k' then Some v else dict_get rest k
  end.

Definition dict_keys (m : dict) : list string := map fst m.

(** The keys of a Python [dict] are pairwise distinct. *)
Definition dict_wf (m : dict) : Prop := NoDup (dict_keys m).

(** [del m[k]] *)
Definition dict_del (m : dict) (k : string) : dict :=
  List.filter (fun kv => negb (String.eqb k (fst kv))) m.

(** Truth value of a Python object ([if v], [not v]). *)
Definition truthy (v : json) : bool :=
  match v with
  | JNull => false
  | JBool b => b
  | JInt z => negb (z =? 0)%Z
  | JStr s => negb (String.eqb s "")
  | JArr l => match l with [] => false | _ => true end
  | JObj m => match m with [] => false | _ => true end
  end.

Fixpoint py_repr (v : json) : string :=
  match v with
  | JNull => "None"
  | JBool true => "True"
  | JBool false => "False"
  | JInt z => Py.str_int z
  | JStr s => Py.repr_str s
  | JArr l => "[" +:+ Py.join ", " (map py_repr l) +:+ "]"
  | JObj m =>
      "{" +:+ Py.join ", "
        (map (fun kv => Py.repr_str (fst kv) +:+ ": " +:+ py_repr (snd kv)) m)
      +:+ "}"
  end.

(** [str(v)], which an f-string applies to an interpolated value. *)
Definition py_str (v : json) : string :=
  match v with
  | JStr s => s
  | _ => py_repr v
  end.

(** ** The process and its environment *)

(** An [OSError] raised by the operating system: its [errno] and the text
    [str(e)] that the diagnostics print. *)
Record oserror : Type := OSError_ { errno : Z; strerror : string }.

(** [isinstance(e, PermissionError)]: Python raises that subclass for
    [EPERM] (1) and [EACCES] (13). *)
Definition is_PermissionError (e : oserror) : bool :=
  (errno e =? 1)%Z || (errno e =? 13)%Z.

Inductive exn : Type :=
| EOFError
| AttributeError
| TypeError (msg : string)
| RuntimeError (msg : string)
| OSError (e : oserror)
| APIError (msg : string)
| SystemExit (code : Z).

(** [str(ex)] *)
Definition exn_str (ex : exn) : string :=
  match ex with
  | EOFError => "EOF when reading a line"
  | AttributeError => "object has no attribute 'get'"
  | TypeError msg | RuntimeError msg | APIError msg => msg
  | OSError e => strerror e
  | SystemExit code => Py.str_int code
  end.

Inductive result (A : Type) : Type :=
| Ok (a : A)
| Raise (ex : exn).
Arguments Ok {A} a.
Arguments Raise {A} ex.

(** What the process does, in the order it does it. *)
Inductive event : Type :=
| Print (line : string)
| Input (prompt answer : string)
| ApiCall (theme_name : string)
| Makedirs (path : string) (err : option oserror)
| OpenWrite (path content : string) (err : option oserror)
| TempFile (path content : string)
| Run (argv : list string) (returncode : Z)
| Remove (path : string).

(** What the model provider answers: a completion, whose message content may
    be absent, or a failure of the call. *)
Inductive api_outcome : Type :=
| Completed (content : option string)
| ApiFailed (msg : string).

Record Env : Type := {
  (** [os.path.expanduser('~')] *)
  env_home : string;
  (** [os.getenv("OPENAI_API_KEY")] once the dotenv file is loaded *)
  env_api_key : option string;
  (** the chat completion requested for a theme keyword *)
  env_chat : string -> api_outcome;
  (** [os.makedirs(path, exist_ok=True)]: the error raised, if any *)
  env_makedirs : string -> option oserror;
  (** [open(path, "w")]: the error the call itself raises, if any *)
  env_open_w : string -> option oserror;
  (** the name [tempfile.NamedTemporaryFile] picks *)
  env_mktemp : gmap string string -> string;
  (** [subprocess.run(argv)]: exit status and effect on the files *)
  env_run : list string -> gmap string string -> Z * gmap string string
}.

Record World : Type := {
  stdin : list string;
  files : gmap string string;
  trace : list event
}.

Definition M (A : Type) : Type := World -> result A * World.

#[export] Instance M_ret : MRet M := fun A a w => (Ok a, w).
#[export] Instance M_bind : MBind M := fun A B f m w =>
  match m w with
  | (Ok a, w') => f a w'
  | (Raise ex, w') => (Raise ex, w')
  end.

Definition raise {A : Type} (ex : exn) : M A := fun w => (Raise ex, w).

(** [try: body  except <selected>: handler] *)
Definition try_except {A : Type} (body : M A) (handler : exn -> option (M A)) : M A :=
  fun w =>
    match body w with
    | (Ok a, w') => (Ok a, w')
    | (Raise ex, w') =>
        match handler ex with
        | Some h => h w'
        | None => (Raise ex, w')
        end
    end.

Definition emit (e : event) : M unit := fun w =>
  (Ok tt, {| stdin := stdin w; files := files w; trace := trace w ++ [e] |}).

Definition get_files : M (gmap string string) := fun w => (Ok (files w), w).

Definition set_files (fs : gmap string string) : M unit := fun w =>
  (Ok tt, {| stdin := stdin w; files := fs; trace := trace w |}).

(** [print(line)] *)
Definition print (line : string) : M unit := emit (Print line).

(** [input(prompt)]: the next line of standard input, or [EOFError]. *)
Definition input (prompt : string) : M string := fun w =>
  match stdin w with
  | [] => (Raise EOFError, w)
  | answer :: rest =>
      (Ok answer,
       {| stdin := rest; files := files w;
          trace := trace w ++ [Input prompt answer] |})
  end.

(** [os.path.join(a, b)] *)
Definition path_join (a b : string) : string :=
  if String.prefix "/" b then b
  else if String.eqb a "" || String.eqb (String.substring (String.length a - 1) 1 a) "/"
       then a +:+ b
       else a +:+ "/" +:+ b.

(** [obj.get(key, default)]; only a [dict] has the method. *)
Definition py_get (obj : json) (key : string) (default : json) : M json :=
  match obj with
  | JObj m => mret (from_option id default (dict_get m key))
  | _ => raise AttributeError
  end.

(** [obj.items()] *)
Definition py_items (obj : json) : M dict :=
  match obj with
  | JObj m => mret m
  | _ => raise AttributeError
  end.

(** ** The script *)

Definition nl : string := String "010"%char "".

Section Script.

(** [json.loads]: the parsed value, or the message of the [JSONDecodeError]. *)
Variable json_loads : string -> string + json.
(** [json.dump(_, f, indent=2)]: the text written. *)
Variable json_dump : json -> string.
Variable env : Env.

(** [os.makedirs(path, exist_ok=True)] *)
Definition os_makedirs (path : string) : M unit :=
  emit (Makedirs path (env_makedirs env path));;
  match env_makedirs env path with
  | Some e => raise (OSError e)
  | None => mret tt
  end.

(** [with open(path, "w") as f: f.write(content)].  When [open] raises, the
    file is neither created nor truncated; the write to an open file
    succeeds. *)
Definition write_file (path content : string) : M unit :=
  emit (OpenWrite path content (env_open_w env path));;
  match env_open_w env path with
  | Some e => raise (OSError e)
  | None => fs ← get_files; set_files (<[path := content]> fs)
  end.

(** [with tempfile.NamedTemporaryFile(delete=False) as tmp: tmp.write(content)],
    giving [tmp.name]. *)
Definition write_temp_file (content : string) : M string :=
  fs ← get_files;
  let tmp_path := env_mktemp env fs in
  emit (TempFile tmp_path content);;
  set_files (<[tmp_path := content]> fs);;
  mret tmp_path.

(** [subprocess.run(argv).returncode] *)
Definition subprocess_run (argv : list string) : M Z :=
  fs ← get_files;
  let '(returncode, fs') := env_run env argv fs in
  emit (Run argv returncode);;
  set_files fs';;
  mret returncode.

(** [os.remove(path)]: a missing file raises ([FileNotFoundError]). *)
Definition os_remove (path : string) : M unit :=
  emit (Remove path);;
  fs ← get_files;
  match fs !! path with
  | Some _ => set_files (delete path fs)
  | None => raise (OSError {| errno := 2; strerror := "No such file or directory" |})
  end.

(** The branch of [load_api_key] taken when [not api_key]. *)
Definition api_key_missing : M string :=
  let env_path := path_join (path_join (env_home env) "vibejam") ".env" in
  print "Error: OPENAI_API_KEY not found.";;
  print "Please ensure the API key is set as an environment variable,";;
  print ("or that the file '" +:+ env_path +:+ "' exists and contains:");;
  print "OPENAI_API_KEY=your_actual_key";;
  raise (SystemExit 1).

Definition load_api_key : M string :=
  match env_api_key env with
  | None => api_key_missing
  | Some api_key =>
      if String.eqb api_key "" then api_key_missing
      else if Py.contains "YOUR_API_KEY_HERE" api_key then
        print "Error: Placeholder API key detected. Please replace 'YOUR_API_KEY_HERE' in .env with your actual OpenAI API key.";;
        raise (SystemExit 1)
      else mret api_key
  end.

(** The characters that make [get_theme_name] refuse a name. *)
Definition refused_chars : list ascii :=
  [" "; "/"; "\"; "."; ":"; "*"; "?"; Py.dquote; "<"; ">"; "|"]%char.

Definition name_prompt : string :=
  "Enter a single-word theme name (e.g., 'brogrammer', 'dungeon', 'vaporwave'): ".

Definition invalid_name_message : string :=
  "Invalid theme name. Please enter a single word containing only letters, numbers, hyphens, or underscores.".

(** [c if c.isalnum() or c in ['-', '_'] else '_'] *)
Definition sanitize_char (c : ascii) : ascii :=
  if Py.isalnum c || Ascii.eqb c "-" || Ascii.eqb c "_" then c else "_"%char.

(** The condition under which the loop returns. *)
Definition name_accepted (theme_name : string) : bool :=
  negb (String.eqb theme_name "") &&
  negb (existsb (fun c => Py.char_in c theme_name) refused_chars).

(** The [while True] loop of [get_theme_name].  Every iteration reads one
    line, so the lines waiting on standard input bound the iterations; when
    none is left [input] raises [EOFError]. *)
Fixpoint get_theme_name_loop (pending : list string) : M string :=
  match pending with
  | [] => input name_prompt
  | _ :: pending' =>
      raw ← input name_prompt;
      let theme_name := Py.lower (Py.strip raw) in
      if name_accepted theme_name then
        mret (Py.map_chars sanitize_char theme_name)
      else
        print invalid_name_message;;
        get_theme_name_loop pending'
  end.

Definition get_theme_name : M string :=
  fun w => get_theme_name_loop (stdin w) w.

Definition generate_ghostty_theme_json (api_key theme_name : string) : M json :=
  print (nl +:+ "Generating theme '" +:+ theme_name +:+ "' using OpenAI GPT-4o...");;
  emit (ApiCall theme_name);;
  match env_chat env theme_name with
  | ApiFailed msg =>
      print ("An error occurred while communicating with OpenAI: " +:+ msg);;
      mret JNull
  | Completed None =>
      print ("An error occurred while communicating with OpenAI: " +:+
             "the JSON object must be str, bytes or bytearray, not NoneType");;
      mret JNull
  | Completed (Some theme_json_string) =>
      match json_loads theme_json_string with
      | inr theme_data =>
          print "Theme JSON successfully generated and parsed.";;
          mret theme_data
      | inl e =>
          print ("Error: OpenAI API did not return valid JSON. " +:+ e);;
          print "Raw response from API was:";;
          (if negb (String.eqb theme_json_string "") then print theme_json_string
           else print "(No response string captured from API)");;
          mret JNull
      end
  end.

(** Handler of an [except OSError as e] clause ([IOError] is the same class). *)
Definition except_OSError {A : Type} (handler : oserror -> M A) (ex : exn) : option (M A) :=
  match ex with
  | OSError e => Some (handler e)
  | _ => None
  end.

Definition save_theme_to_file (theme_name : string) (theme_data : json) : M unit :=
  let output_dir := path_join "themes" "ghostty" in
  created ← try_except
    (os_makedirs output_dir;; mret true)
    (except_OSError (fun e =>
       print ("Error creating directory " +:+ output_dir +:+ ": " +:+ strerror e);;
       mret false));
  if created : bool then
    let file_path := path_join output_dir (theme_name +:+ ".json") in
    try_except
      (write_file file_path (json_dump theme_data);;
       print ("Theme '" +:+ theme_name +:+ "' saved successfully to " +:+ file_path))
      (except_OSError (fun e =>
         print ("Error saving theme file " +:+ file_path +:+ ": " +:+ strerror e)))
  else mret tt.

(** *** The format converter *)

Definition palette_warning (i : nat) : string :=
  "Warning: Palette index " +:+ Py.str_nat i +:+ " missing in generated theme data.".

Definition palette_line (i : nat) (hex_code : json) : string :=
  "palette = " +:+ Py.str_nat i +:+ "=" +:+ py_str hex_code.

Definition scalar_line (key : string) (value : json) : string :=
  key +:+ " = " +:+ py_str value.

(** [for i in range(16): ...], over the indices still to visit. *)
Fixpoint palette_loop (palette : json) (indices : list nat) (lines : list string)
  : M (list string) :=
  match indices with
  | [] => mret lines
  | i :: indices' =>
      hex_code ← py_get palette (Py.str_nat i) JNull;
      if negb (truthy hex_code) then
        print (palette_warning i);;
        palette_loop palette indices' lines
      else
        palette_loop palette indices' (lines ++ [palette_line i hex_code])
  end.

(** [for key, value in theme_data.items(): ...] *)
Fixpoint items_loop (items : dict) (lines : list string) : list string :=
  match items with
  | [] => lines
  | (key, value) :: items' =>
      if String.eqb key "palette" then items_loop items' lines
      else items_loop items' (lines ++ [scalar_line key value])
  end.

Definition convert_theme_to_conf (theme_data : json) : M string :=
  palette ← py_get theme_data "palette" (JObj []);
  lines ← palette_loop palette (seq 0 16) [];
  items ← py_items theme_data;
  let lines := items_loop items lines in
  mret (Py.join nl lines +:+ nl).

(** *** The privileged writer *)

Definition sudo_prompt : string :=
  "It looks like we don't have permission to write to Ghostty's theme directory. Attempt to save using sudo? (y/N): ".

Definition skipping_message : string :=
  "Skipping sudo attempt. The stripped theme was NOT saved to the Ghostty directory.".

Definition _attempt_save_with_sudo (conf_content dir_path file_path : string) : M unit :=
  print "Requesting administrator privileges to write theme file via sudo...";;
  let mkdir_cmd := ["sudo"; "mkdir"; "-p"; dir_path] in
  returncode ← subprocess_run mkdir_cmd;
  if negb (returncode =? 0)%Z then
    raise (RuntimeError ("sudo mkdir returned non-zero exit status " +:+ Py.str_int returncode))
  else
    tmp_path ← write_temp_file conf_content;
    let mv_cmd := ["sudo"; "mv"; tmp_path; file_path] in
    returncode ← subprocess_run mv_cmd;
    if negb (returncode =? 0)%Z then
      try_except (os_remove tmp_path) (except_OSError (fun _ => mret tt));;
      raise (RuntimeError ("sudo mv returned non-zero exit status " +:+ Py.str_int returncode))
    else
      print ("Stripped theme saved successfully via sudo to " +:+ file_path).

Definition prompt_and_attempt_sudo_save (theme_name conf_content : string) : M unit :=
  answer ← input sudo_prompt;
  let resp := Py.lower (Py.strip answer) in
  if negb (String.eqb resp "y") then
    print skipping_message
  else
    let ghostty_themes_dir := "/Applications/Ghostty.app/Contents/Resources/ghostty/themes" in
    let target_path := path_join ghostty_themes_dir (Py.lower theme_name) in
    try_except
      (_attempt_save_with_sudo conf_content ghostty_themes_dir target_path)
      (fun ex => match ex with
                 | SystemExit _ => None
                 | _ => Some (print ("sudo attempt failed: " +:+ exn_str ex))
                 end).

Definition save_conf_to_ghostty (theme_name conf_content : string) : M unit :=
  let ghostty_themes_dir := "/Applications/Ghostty.app/Contents/Resources/themes" in
  let file_path := path_join ghostty_themes_dir (Py.lower theme_name) in
  created ← try_except
    (os_makedirs ghostty_themes_dir;; mret true)
    (except_OSError (fun e =>
       print ("Error ensuring Ghostty themes directory exists at " +:+
              ghostty_themes_dir +:+ ": " +:+ strerror e);;
       (if is_PermissionError e || (errno e =? 13)%Z
        then prompt_and_attempt_sudo_save theme_name conf_content
        else mret tt);;
       mret false));
  if created : bool then
    try_except
      (write_file file_path conf_content;;
       print ("Stripped theme saved successfully to " +:+ file_path))
      (except_OSError (fun e =>
         print ("Error writing stripped theme to " +:+ file_path +:+ ": " +:+ strerror e);;
         if is_PermissionError e || (errno e =? 13)%Z
         then prompt_and_attempt_sudo_save theme_name conf_content
         else mret tt))
  else mret tt.

Definition main : M unit :=
  print "Ghostty Theme Generator";;
  print "-----------------------";;
  api_key ← load_api_key;
  if String.eqb api_key "" then mret tt
  else
    theme_name ← get_theme_name;
    theme_data ← generate_ghostty_theme_json api_key theme_name;
    if truthy theme_data then
      save_theme_to_file theme_name theme_data;;
      conf_content ← convert_theme_to_conf theme_data;
      save_conf_to_ghostty theme_name conf_content
    else
      print ("Failed to generate theme data for '" +:+ theme_name +:+ "'.").

End Script.

(** ** Reading the converter *)

(** The world after the process has done [evs] more. *)
Definition add_trace (w : World) (evs : list event) : World :=
  {| stdin := stdin w; files := files w; trace := trace w ++ evs |}.

(** [palette.get(str(i))] *)
Definition hex_code_of (palette : dict) (i : nat) : json :=
  from_option id JNull (dict_get palette (Py.str_nat i)).

(** The lines and the warnings of the palette loop over [indices]. *)
Definition palette_lines (palette : dict) (indices : list nat) : list string :=
  flat_map (fun i => if truthy (hex_code_of palette i)
                     then [palette_line i (hex_code_of palette i)] else []) indices.

Definition palette_warnings (palette : dict) (indices : list nat) : list event :=
  flat_map (fun i => if truthy (hex_code_of palette i)
                     then [] else [Print (palette_warning i)]) indices.

Definition not_palette (kv : string * json) : bool :=
  negb (String.eqb (fst kv) "palette").

(** The lines of the loop over the top-level items. *)
Definition scalar_lines (items : dict) : list string :=
  map (fun kv => scalar_line (fst kv) (snd kv)) (List.filter not_palette items).

(** Every index of [range(16)] has a truthy value in the palette. *)
Definition complete_palette (palette : dict) : bool :=
  forallb (fun i => truthy (hex_code_of palette i)) (seq 0 16).

(** [s.endswith(suffix)] *)
Fixpoint endswith (suffix s : string) : bool :=
  String.eqb suffix s ||
  match s with
  | EmptyString => false
  | String _ s' => endswith suffix s'
  end.

Definition exactly_one_trailing_newline (s : string) : bool :=
  endswith nl s && negb (endswith (nl +:+ nl) s).

(** The example document of the specification. *)
Definition example_document : json :=
  JObj [("palette", JObj [("0", JStr "#111111"); ("1", JStr "#ff0000")]);
        ("background", JStr "#111111")].

Definition empty_world : World := {| stdin := []; files := ∅; trace := [] |}.

(** The palette that [theme_data.get("palette", {...})] yields on a [dict]:
    the empty mapping when the key is absent. *)
Definition palette_of (theme_data : dict) : json :=
  from_option id (JObj []) (dict_get theme_data "palette").

(** A palette with every index of [range(16)] set. *)
Definition full_palette : dict :=
  [("0", JStr "#1d1f21"); ("1", JStr "#cc6666"); ("2", JStr "#b5bd68");
   ("3", JStr "#f0c674"); ("4", JStr "#81a2be"); ("5", JStr "#b294bb");
   ("6", JStr "#8abeb7"); ("7", JStr "#c5c8c6"); ("8", JStr "#969896");
   ("9", JStr "#de935f"); ("10", JStr "#a3be8c"); ("11", JStr "#ebcb8b");
   ("12", JStr "#5e81ac"); ("13", JStr "#b48ead"); ("14", JStr "#88c0d0");
   ("15", JStr "#ffffff")].

(** A document with a full palette whose last value ends in a line feed. *)
Definition newline_tail_document : dict :=
  [("palette", JObj full_palette); ("background", JStr "#1d1f21");
   ("title", JStr ("Tomorrow" +:+ nl))].

(** [m[k] = v] on a key that is present: the value changes, the position
    stays. *)
Definition dict_set (m : dict) (k : string) (v : json) : dict :=
  map (fun kv => if String.eqb k (fst kv) then (fst kv, v) else kv) m.

(** A palette whose index 3 is present with the empty string. *)
Definition empty_slot_document : dict :=
  [("palette", JObj [("0", JStr "#111111"); ("3", JStr EmptyString)]);
   ("background", JStr "#111111")].

(** *** Observing the writer *)

(** The terminal states of the writer, as the specification names them. *)
Inductive writer_state : Type := Done | Aborted | Failed.

(** The state a run of the writer ended in, read off the last thing it did:
    each terminal state has its own closing diagnostic. *)
Definition writer_state_of (evs : list event) : option writer_state :=
  match last evs with
  | Some (Print line) =>
      if String.eqb line skipping_message then Some Aborted
      else if String.prefix "sudo attempt failed: " line then Some Failed
      else if String.prefix "Stripped theme saved successfully" line then Some Done
      else None
  | _ => None
  end.

(** The external commands a run invoked ([subprocess.run] is only ever
    called on [sudo] command lines). *)
Definition elevated_commands (evs : list event) : list (list string) :=
  flat_map (fun e => match e with Run argv _ => [argv] | _ => [] end) evs.

(** The test both [except] clauses of [save_conf_to_ghostty] make. *)
Definition permission_denied (e : oserror) : bool :=
  is_PermissionError e || (errno e =? 13)%Z.

(** The events that touch the file system or start a process. *)
Definition persists (e : event) : bool :=
  match e with
  | Print _ | Input _ _ | ApiCall _ => false
  | Makedirs _ _ | OpenWrite _ _ _ | TempFile _ _ | Run _ _ | Remove _ => true
  end.

(** The two directories the writer names. *)
Definition themes_dir : string :=
  "/Applications/Ghostty.app/Contents/Resources/themes".
Definition sudo_themes_dir : string :=
  "/Applications/Ghostty.app/Contents/Resources/ghostty/themes".

Definition EACCES : oserror := {| errno := 13; strerror := "[Errno 13] Permission denied" |}.

(** An environment in which the Ghostty directory exists but is not writable,
    and [sudo mv] fails without touching the files. *)
Definition locked_env : Env :=
  {| env_home := "/Users/me";
     env_api_key := Some "sk-test";
     env_chat := fun _ => Completed (Some "not json");
     env_makedirs := fun _ => None;
     env_open_w := fun path => if String.prefix "/Applications/" path then Some EACCES else None;
     env_mktemp := fun _ => "/tmp/tmpab12cd";
     env_run := fun argv fs =>
       match argv with
       | [_; "mv"; _; _] => (1%Z, fs)
       | _ => (0%Z, fs)
       end |}.

(** The same environment with a [sudo mv] that moves the file. *)
Definition sudo_env : Env :=
  {| env_home := "/Users/me";
     env_api_key := Some "sk-test";
     env_chat := fun _ => Completed (Some "not json");
     env_makedirs := fun _ => None;
     env_open_w := fun path => if String.prefix "/Applications/" path then Some EACCES else None;
     env_mktemp := fun _ => "/tmp/tmpab12cd";
     env_run := fun argv fs =>
       match argv with
       | [_; "mv"; src; dst] =>
           match fs !! src with
           | Some content => (0%Z, <[dst := content]> (delete src fs))
           | None => (1%Z, fs)
           end
       | _ => (0%Z, fs)
       end |}.

Definition requesting_message : string :=
  "Requesting administrator privileges to write theme file via sudo...".

(** The characters a theme name may hold after [get_theme_name]. *)
Definition allowed_char (c : ascii) : bool :=
  Py.isalnum c || Ascii.eqb c "-" || Ascii.eqb c "_".

(** The persisting events among [evs]. *)
Definition persisting (evs : list event) : list event := List.filter persists evs.

(** What [generate_ghostty_theme_json] does when the response [s] to the
    keyword is refused by [json.loads] with the message [msg]. *)
Definition invalid_json_events (theme_name s msg : string) : list event :=
  [Print (nl +:+ "Generating theme '" +:+ theme_name +:+ "' using OpenAI GPT-4o...");
   ApiCall theme_name;
   Print ("Error: OpenAI API did not return valid JSON. " +:+ msg);
   Print "Raw response from API was:";
   Print (if String.eqb s EmptyString then "(No response string captured from API)" else s)].

Definition banner : list event :=
  [Print "Ghostty Theme Generator"; Print "-----------------------"].

(** *** Reading the flat format back *)

(** A key/value pair of a theme document: an entry of the palette mapping,
    or a top-level entry other than [palette]. *)
Inductive conf_entry : Type :=
| PaletteEntry (index : string) (value : json)
| ScalarEntry (key : string) (value : json).

(** The key/value pairs of a document. *)
Definition document_entries (theme_data : dict) : list conf_entry :=
  match palette_of theme_data with
  | JObj palette => map (fun kv => PaletteEntry (fst kv) (snd kv)) palette
  | _ => []
  end ++
  map (fun kv => ScalarEntry (fst kv) (snd kv)) (List.filter not_palette theme_data).

(** [text.split(nl)] *)
Fixpoint split_lines (text : string) : list string :=
  match text with
  | EmptyString => [EmptyString]
  | String c text' =>
      if Ascii.eqb c "010" then EmptyString :: split_lines text'
      else match split_lines text' with
           | [] => [String c EmptyString]
           | line :: lines => String c line :: lines
           end
  end.

Fixpoint drop_chars (n : nat) (s : string) : string :=
  match n, s with
  | S n', String _ s' => drop_chars n' s'
  | _, _ => s
  end.

(** [s.partition(sep)] when [sep] occurs in [s]: what stands before its
    first occurrence and what stands after it. *)
Fixpoint partition (sep s : string) : option (string * string) :=
  if String.prefix sep s then Some (EmptyString, drop_chars (String.length sep) s)
  else match s with
       | EmptyString => None
       | String c s' =>
           match partition sep s' with
           | Some (before, after) => Some (String c before, after)
           | None => None
           end
       end.

(** Modelled from the spec: the re-parsing of the flat output, which the
    repository does not implement.  The flat format is line-oriented
    [key = value] text and a palette entry reads [palette = index=value]: a
    line is cut at its first [ = ], and the value of a [palette] line at its
    first [=]; a line without separator (the empty line after the last
    newline) carries no entry. *)
Definition parse_line (line : string) : option conf_entry :=
  match partition " = " line with
  | Some (key, value) =>
      if String.eqb key "palette" then
        match partition "=" value with
        | Some (index, color) => Some (PaletteEntry index (JStr color))
        | None => None
        end
      else Some (ScalarEntry key (JStr value))
  | None => None
  end.

Definition parse_conf (text : string) : list conf_entry :=
  omap parse_line (split_lines text).

Definition newline_free (s : string) : bool := negb (Py.char_in "010" s).
Definition equals_free (s : string) : bool := negb (Py.char_in "=" s).

(** One of the decimal strings 0 to 15. *)
Definition palette_index (k : string) : bool :=
  existsb (fun i => String.eqb k (Py.str_nat i)) (seq 0 16).

Definition is_hex_digit (c : ascii) : bool :=
  Py.isdigit c || Py.char_between 65 70 c || Py.char_between 97 102 c.

Fixpoint all_chars (p : ascii -> bool) (s : string) : bool :=
  match s with
  | EmptyString => true
  | String c s' => p c && all_chars p s'
  end.

(** A color string: a hash sign and six hexadecimal digits. *)
Definition is_color (v : json) : bool :=
  match v with
  | JStr (String "#" digits) => (String.length digits =? 6)%nat && all_chars is_hex_digit digits
  | _ => false
  end.

Definition is_string (v : json) : bool :=
  match v with JStr _ => true | _ => false end.

(** Modelled from the spec: the ThemeDocument of the data model, a mapping
    with a [palette] sub-mapping from the decimal strings 0 to 15 to color
    strings, and string values under every other top-level key. *)
Definition is_theme_document (theme_data : dict) : bool :=
  match dict_get theme_data "palette" with
  | Some (JObj palette) =>
      bool_decide (dict_wf theme_data) && bool_decide (dict_wf palette) &&
      forallb (fun kv => palette_index (fst kv) && is_color (snd kv)) palette &&
      forallb (fun kv => is_string (snd kv)) (List.filter not_palette theme_data)
  | _ => false
  end.

Definition newline_free_value (v : json) : bool :=
  match v with JStr s => newline_free s | _ => true end.

(** No value of the document, in the palette or at the top level, holds a
    line feed. *)
Definition values_newline_free (theme_data : dict) : bool :=
  match palette_of theme_data with
  | JObj palette => forallb (fun kv => newline_free_value (snd kv)) palette
  | _ => true
  end &&
  forallb (fun kv => newline_free_value (snd kv)) (List.filter not_palette theme_data).

(** Two theme documents that differ in where the separator stands. *)
Definition separator_in_key_document : dict :=
  [("palette", JObj []); ("a = b", JStr "c")].
Definition separator_in_value_document : dict :=
  [("palette", JObj []); ("a", JStr "b = c")].

(** A palette entry that comes back from the flat format: an index of
    [range(16)] with a non-empty string free of line feeds. *)
Definition palette_entry_ok (kv : string * json) : bool :=
  palette_index (fst kv) &&
  match snd kv with
  | JStr s => negb (String.eqb s EmptyString) && newline_free s
  | _ => false
  end.

(** A top-level entry that comes back from the flat format: a key free of
    line feeds and of [=], with a string free of line feeds. *)
Definition scalar_entry_ok (kv : string * json) : bool :=
  newline_free (fst kv) && equals_free (fst kv) &&
  match snd kv with
  | JStr s => newline_free s
  | _ => false
  end.

Definition tomorrow_document : dict :=
  [("background", JStr "#1d1f21"); ("palette", JObj full_palette);
   ("cursor-color", JStr "#c5c8c6")].

(** *** Further observations *)

Definition is_print (e : event) : bool :=
  match e with Print _ => true | _ => false end.

(** The keywords the model provider was asked about. *)
Definition api_calls (evs : list event) : list string :=
  flat_map (fun e => match e with ApiCall theme_name => [theme_name] | _ => [] end) evs.

(** The lines read from standard input. *)
Definition inputs_read (evs : list event) : list string :=
  flat_map (fun e => match e with Input _ answer => [answer] | _ => [] end) evs.

(** The paths [open(path, "w")] was called on. *)
Definition opened_paths (evs : list event) : list string :=
  flat_map (fun e => match e with OpenWrite path _ _ => [path] | _ => [] end) evs.

(** A usable key: set, not empty, not the placeholder. *)
Definition usable_key (api_key : option string) : bool :=
  match api_key with
  | Some key => negb (String.eqb key EmptyString) &&
                negb (Py.contains "YOUR_API_KEY_HERE" key)
  | None => false
  end.

(** What the prompt loop leaves in the trace for the rejected lines. *)
Definition rejections (rejected : list string) : list event :=
  flat_map (fun raw => [Input name_prompt raw; Print invalid_name_message]) rejected.

Definition rejected_line (raw : string) : bool :=
  negb (name_accepted (Py.lower (Py.strip raw))).

(** A value the converter can read: a mapping whose [palette], when present,
    is a mapping too. *)
Definition mapping_document (theme_data : json) : bool :=
  match theme_data with
  | JObj m => match palette_of m with JObj _ => true | _ => false end
  | _ => false
  end.

Definition json_dir : string := "themes/ghostty".

Definition EROFS : oserror := {| errno := 30; strerror := "[Errno 30] Read-only file system" |}.

(** An environment in which every directory and file is writable. *)
Definition open_env : Env :=
  {| env_home := "/Users/me";
     env_api_key := Some "sk-test";
     env_chat := fun _ => Completed (Some "{}");
     env_makedirs := fun _ => None;
     env_open_w := fun _ => None;
     env_mktemp := fun _ => "/tmp/tmpab12cd";
     env_run := fun _ fs => (0%Z, fs) |}.

(** An environment whose file system is read-only, and one without any key. *)
Definition read_only_env : Env :=
  {| env_home := "/Users/me";
     env_api_key := Some "sk-test";
     env_chat := fun _ => ApiFailed "Connection error.";
     env_makedirs := fun _ => None;
     env_open_w := fun _ => Some EROFS;
     env_mktemp := fun _ => "/tmp/tmpab12cd";
     env_run := fun _ fs => (0%Z, fs) |}.

Definition keyless_env : Env :=
  {| env_home := "/Users/me";
     env_api_key := None;
     env_chat := fun _ => ApiFailed "Connection error.";
     env_makedirs := fun _ => None;
     env_open_w := fun _ => None;
     env_mktemp := fun _ => "/tmp/tmpab12cd";
     env_run := fun _ fs => (0%Z, fs) |}.

(** An environment in which [sudo] refuses to run anything. *)
Definition no_sudo_env : Env :=
  {| env_home := "/Users/me";
     env_api_key := Some "sk-test";
     env_chat := fun _ => Completed None;
     env_makedirs := fun _ => Some EACCES;
     env_open_w := fun _ => Some EACCES;
     env_mktemp := fun _ => "/tmp/tmpab12cd";
     env_run := fun _ fs => (1%Z, fs) |}.

(** The command lines a run of the writer may have invoked, in order:
    none, the directory creation alone, or the directory creation followed
    by the move of a temporary file to the escalated target. *)
Definition escalation_commands (theme_name : string) (cmds : list (list string)) : Prop :=
  cmds = [] \/
  cmds = [["sudo"; "mkdir"; "-p"; sudo_themes_dir]] \/
  exists tmp_path,
    cmds = [["sudo"; "mkdir"; "-p"; sudo_themes_dir];
            ["sudo"; "mv"; tmp_path; path_join sudo_themes_dir (Py.lower theme_name)]].

(** Text made of ASCII characters only, on which the string operations of
    the embedding are those of Python. *)
Definition ascii_text (s : string) : bool :=
  all_chars (fun c => (nat_of_ascii c <? 128)%nat) s.

(** * Properties *)

(** ** The monad and the converter's loops *)

Lemma add_trace_nil (w : World) : add_trace w [] = w.
Proof. destruct w; unfold add_trace; simpl. by rewrite app_nil_r. Qed.

Lemma add_trace_app (w : World) (evs1 evs2 : list event) :
  add_trace (add_trace w evs1) evs2 = add_trace w (evs1 ++ evs2).
Proof. unfold add_trace; simpl. by rewrite app_assoc. Qed.

Lemma print_run (line : string) (w : World) :
  print line w = (Ok tt, add_trace w [Print line]).
Proof. reflexivity. Qed.

Lemma palette_loop_run (palette : dict) (indices : list nat) :
  forall (lines : list string) (w : World),
    palette_loop (JObj palette) indices lines w =
    (Ok (lines ++ palette_lines palette indices),
     add_trace w (palette_warnings palette indices)).
Proof.
  induction indices as [|i indices IH]; intros lines w.
  - simpl. by rewrite app_nil_r, add_trace_nil.
  - cbn [palette_loop palette_lines palette_warnings flat_map].
    unfold mbind, M_bind, py_get, mret, M_ret.
    fold (hex_code_of palette i).
    destruct (truthy (hex_code_of palette i)) eqn:Ht; cbn [negb].
    + rewrite IH. by rewrite <- app_assoc.
    + rewrite print_run, IH. by rewrite add_trace_app.
Qed.

Lemma items_loop_run (items : dict) :
  forall lines : list string, items_loop items lines = lines ++ scalar_lines items.
Proof.
  induction items as [|[key value] items IH]; intros lines.
  - simpl. by rewrite app_nil_r.
  - unfold scalar_lines. cbn [items_loop List.filter]. unfold not_palette at 1.
    cbn [fst]. destruct (String.eqb key "palette"); cbn [negb].
    + apply IH.
    + rewrite IH. unfold scalar_lines. cbn [map fst snd]. by rewrite <- app_assoc.
Qed.

(** The converter on a document whose palette is a mapping: the palette
    lines, then the other items, joined and closed by one newline; one
    warning for every index without a truthy value. *)
Lemma convert_run (theme_data palette : dict) (w : World) :
  palette_of theme_data = JObj palette ->
  convert_theme_to_conf (JObj theme_data) w =
  (Ok (Py.join nl (palette_lines palette (seq 0 16) ++ scalar_lines theme_data) +:+ nl),
   add_trace w (palette_warnings palette (seq 0 16))).
Proof.
  intros Hp. unfold convert_theme_to_conf.
  unfold mbind at 1. unfold M_bind at 1. unfold py_get at 1.
  fold (palette_of theme_data). rewrite Hp.
  unfold mret at 1. unfold M_ret at 1.
  unfold mbind at 1. unfold M_bind at 1.
  rewrite palette_loop_run. cbn [app].
  unfold mbind, M_bind, py_items, mret, M_ret.
  by rewrite items_loop_run.
Qed.

(** ** Strings: suffixes and joined lines *)

Lemma eqb_length_ne (s t : string) :
  String.length s <> String.length t -> String.eqb s t = false.
Proof. intros Hl. apply String.eqb_neq. intros ->. by apply Hl. Qed.

Lemma string_length_app (s t : string) :
  String.length (s +:+ t) = (String.length s + String.length t)%nat.
Proof. induction s as [|c s IH]; cbn [String.append String.length Nat.add]; congruence. Qed.

Lemma string_app_assoc (s t u : string) : (s +:+ t) +:+ u = s +:+ t +:+ u.
Proof. induction s as [|c s IH]; cbn [String.append]; congruence. Qed.

Lemma endswith_refl (s : string) : endswith s s = true.
Proof. destruct s; simpl; by rewrite ?String.eqb_refl, ?Ascii.eqb_refl. Qed.

Lemma endswith_app (suffix p : string) : endswith suffix (p +:+ suffix) = true.
Proof.
  induction p as [|c p IH]; simpl.
  - apply endswith_refl.
  - rewrite IH. apply orb_true_r.
Qed.

(** A suffix no longer than [x] is looked for in [x] alone. *)
Lemma endswith_app_long (suffix p x : string) :
  (String.length suffix <= String.length x)%nat ->
  endswith suffix (p +:+ x) = endswith suffix x.
Proof.
  intros Hl. induction p as [|c p IH]; [done|].
  cbn [String.append endswith]. rewrite IH.
  rewrite eqb_length_ne; [done|].
  cbn [String.length]. rewrite string_length_app. lia.
Qed.

Lemma endswith_two_newlines (l : string) :
  l <> EmptyString -> endswith nl l = false ->
  endswith (nl +:+ nl) (l +:+ nl) = false.
Proof.
  induction l as [|c l IH]; [done|]. intros _ Hn.
  cbn [endswith] in Hn. apply orb_false_iff in Hn as [Hc Hl].
  destruct l as [|c' l].
  - cbn [String.append endswith]. apply orb_false_iff. split; [|reflexivity].
    unfold nl in *. cbn in Hc |- *. by rewrite Hc.
  - change (String c (String c' l) +:+ nl) with (String c (String c' l +:+ nl)).
    cbn [endswith]. rewrite IH; [|done|done].
    rewrite eqb_length_ne; [done|].
    cbn [String.length String.append nl]. rewrite string_length_app. simpl. lia.
Qed.

Lemma join_last (sep : string) (lines : list string) :
  lines <> [] -> exists p, Py.join sep lines = p +:+ List.last lines EmptyString.
Proof.
  induction lines as [|l lines IH]; [done|]. intros _.
  destruct lines as [|l' lines].
  - by exists EmptyString.
  - destruct IH as [p Hp]; [done|].
    exists (l +:+ sep +:+ p).
    change (Py.join sep (l :: l' :: lines))
      with (l +:+ sep +:+ Py.join sep (l' :: lines)).
    rewrite Hp. change (List.last (l :: l' :: lines) EmptyString)
      with (List.last (l' :: lines) EmptyString).
    by rewrite !string_app_assoc.
Qed.

Lemma last_in (lines : list string) :
  lines <> [] -> In (List.last lines EmptyString) lines.
Proof.
  induction lines as [|l lines IH]; [done|]. intros _.
  destruct lines as [|l' lines]; [by left|]. right. by apply IH.
Qed.

(** The joined lines close with one newline when the last line is not empty
    and does not itself end in one. *)
Lemma join_one_trailing_newline (lines : list string) :
  lines <> [] ->
  List.last lines EmptyString <> EmptyString ->
  endswith nl (List.last lines EmptyString) = false ->
  exactly_one_trailing_newline (Py.join nl lines +:+ nl) = true.
Proof.
  intros Hne Hlast Hnl. unfold exactly_one_trailing_newline.
  rewrite endswith_app. cbn [andb].
  destruct (join_last nl lines Hne) as [p ->].
  rewrite string_app_assoc, endswith_app_long.
  - by rewrite endswith_two_newlines.
  - rewrite !string_length_app.
    destruct (List.last lines EmptyString); [done|]. unfold nl. simpl. lia.
Qed.

Lemma palette_line_nonempty (i : nat) (v : json) : palette_line i v <> EmptyString.
Proof. done. Qed.

Lemma scalar_line_nonempty (key : string) (value : json) :
  scalar_line key value <> EmptyString.
Proof. unfold scalar_line. by destruct key. Qed.

Lemma scalar_lines_nonempty (items : dict) (l : string) :
  In l (scalar_lines items) -> l <> EmptyString.
Proof.
  unfold scalar_lines. intros Hin. apply in_map_iff in Hin as [[k v] [<- _]].
  apply scalar_line_nonempty.
Qed.

(** ** The converter on a complete palette *)

Lemma complete_palette_lines (palette : dict) (indices : list nat) :
  forallb (fun i => truthy (hex_code_of palette i)) indices = true ->
  palette_lines palette indices =
    map (fun i => palette_line i (hex_code_of palette i)) indices /\
  palette_warnings palette indices = [].
Proof.
  induction indices as [|i indices IH]; [done|].
  cbn [forallb]. intros [Hi Hrest]%andb_true_iff.
  destruct (IH Hrest) as [IHl IHw].
  unfold palette_lines, palette_warnings. cbn [flat_map map]. rewrite Hi.
  fold (palette_lines palette indices). fold (palette_warnings palette indices).
  by rewrite IHl, IHw.
Qed.

(** C1 (amended): for every document whose palette mapping gives all 16
    indices a non-empty (truthy) value, [convert_theme_to_conf] logs nothing
    and returns the 16 entries [palette = i=<value>] in ascending index order
    0..15, then one entry [<key> = <value>] for every other top-level key in
    iteration order, joined by newlines and closed by one newline; the output
    ends with exactly one trailing newline whenever the last entry does not
    itself end in a newline (values are inserted verbatim). *)
Theorem convert_complete_palette (theme_data palette : dict) (w : World) :
  dict_get theme_data "palette" = Some (JObj palette) ->
  complete_palette palette = true ->
  let lines :=
    map (fun i => palette_line i (hex_code_of palette i)) (seq 0 16) ++
    scalar_lines theme_data in
  convert_theme_to_conf (JObj theme_data) w = (Ok (Py.join nl lines +:+ nl), w) /\
  (endswith nl (List.last lines EmptyString) = false ->
   exactly_one_trailing_newline (Py.join nl lines +:+ nl) = true).
Proof.
  intros Hpal Hfull lines.
  destruct (complete_palette_lines palette (seq 0 16) Hfull) as [Hlines Hwarn].
  split.
  - rewrite (convert_run theme_data palette).
    + by rewrite Hlines, Hwarn, add_trace_nil.
    + unfold palette_of. by rewrite Hpal.
  - intros Hlast.
    assert (Hne : lines <> []) by done.
    apply join_one_trailing_newline; [done| |done].
    pose proof (last_in lines Hne) as Hin.
    apply in_app_or in Hin as [Hin|Hin].
    + apply in_map_iff in Hin as [i [<- _]]. apply palette_line_nonempty.
    + by apply scalar_lines_nonempty in Hin.
Qed.

Lemma convert_complete_palette_witness :
  convert_theme_to_conf
    (JObj [("palette", JObj full_palette); ("background", JStr "#1d1f21")])
    empty_world =
  (Ok (Py.join nl
         (map (fun i => palette_line i (hex_code_of full_palette i)) (seq 0 16) ++
          ["background = #1d1f21"]) +:+ nl),
   empty_world) /\
  exactly_one_trailing_newline
    (Py.join nl
       (map (fun i => palette_line i (hex_code_of full_palette i)) (seq 0 16) ++
        ["background = #1d1f21"]) +:+ nl) = true.
Proof.
  pose proof (convert_complete_palette
                [("palette", JObj full_palette); ("background", JStr "#1d1f21")]
                full_palette empty_world eq_refl eq_refl) as [Hrun Hone].
  split; [exact Hrun | apply Hone; reflexivity].
Defined.

(** C1 as stated fails: on a theme document with a full palette whose last
    value ends in a line feed, the output ends with two newlines. *)
Lemma convert_trailing_newline_counterexample :
  is_theme_document newline_tail_document = true /\
  dict_get newline_tail_document "palette" = Some (JObj full_palette) /\
  complete_palette full_palette = true /\
  exists text,
    convert_theme_to_conf (JObj newline_tail_document) empty_world =
      (Ok text, empty_world) /\
    endswith (nl +:+ nl) text = true /\
    exactly_one_trailing_newline text = false.
Proof.
  split; [vm_compute; reflexivity|]. split; [reflexivity|]. split; [reflexivity|].
  eexists. split; [vm_compute; reflexivity|]. split; reflexivity.
Qed.

(** ** The example document *)

(** C2 (amended): on the example document the converter returns the palette
    lines of indices 0 and 1, in that order, then [background = #111111],
    closed by a newline, and logs one warning for each of the 14 absent
    indices 2..15. *)
Theorem convert_example_document (w : World) :
  convert_theme_to_conf example_document w =
  (Ok ("palette = 0=#111111" +:+ nl +:+
       "palette = 1=#ff0000" +:+ nl +:+
       "background = #111111" +:+ nl),
   add_trace w (map (fun i => Print (palette_warning i)) (seq 2 14))) /\
  length (map (fun i => Print (palette_warning i)) (seq 2 14)) = 14.
Proof.
  split; [|reflexivity].
  unfold example_document.
  rewrite (convert_run _ [("0", JStr "#111111"); ("1", JStr "#ff0000")]);
    reflexivity.
Qed.

(** C2 as stated fails: the warnings logged on the example document are not
    13 (the trace of a run from the empty world holds nothing else). *)
Lemma convert_example_not_13_warnings :
  length (trace (snd (convert_theme_to_conf example_document empty_world))) <> 13.
Proof. vm_compute. discriminate. Qed.

(** ** A present but falsy palette value *)

Lemma dict_get_del (m : dict) (k k' : string) :
  dict_get (dict_del m k) k' = if String.eqb k k' then None else dict_get m k'.
Proof.
  induction m as [|[k0 v0] m IH]; simpl.
  - by destruct (String.eqb k k').
  - destruct (String.eqb k k0) eqn:Hk; simpl.
    + apply String.eqb_eq in Hk as ->. rewrite IH.
      rewrite (String.eqb_sym k' k0). by destruct (String.eqb k0 k').
    + rewrite IH. destruct (String.eqb k' k0) eqn:Hk'; [|done].
      apply String.eqb_eq in Hk' as ->. by rewrite Hk.
Qed.

(** Deleting a key whose value is falsy changes no truth test of the loop,
    and no line it appends. *)
Lemma hex_code_of_del (palette : dict) (k : string) (v : json) (j : nat) :
  dict_get palette k = Some v -> truthy v = false ->
  (truthy (hex_code_of palette j) = true ->
   hex_code_of (dict_del palette k) j = hex_code_of palette j) /\
  truthy (hex_code_of (dict_del palette k) j) = truthy (hex_code_of palette j).
Proof.
  intros Hget Hfalsy. unfold hex_code_of. rewrite dict_get_del.
  destruct (String.eqb k (Py.str_nat j)) eqn:Hk; [|done].
  apply String.eqb_eq in Hk as <-. rewrite Hget. simpl. rewrite Hfalsy.
  by split.
Qed.

Lemma palette_loop_del (palette : dict) (k : string) (v : json) (indices : list nat) :
  dict_get palette k = Some v -> truthy v = false ->
  palette_lines (dict_del palette k) indices = palette_lines palette indices /\
  palette_warnings (dict_del palette k) indices = palette_warnings palette indices.
Proof.
  intros Hget Hfalsy. unfold palette_lines, palette_warnings.
  induction indices as [|j indices [IHl IHw]]; [done|].
  cbn [flat_map]. rewrite IHl, IHw.
  destruct (hex_code_of_del palette k v j Hget Hfalsy) as [Hsame Htruth].
  rewrite Htruth. destruct (truthy (hex_code_of palette j)); [|done].
  by rewrite Hsame.
Qed.

Lemma dict_get_set (m : dict) (k : string) (v v0 : json) :
  dict_get m k = Some v0 -> dict_get (dict_set m k v) k = Some v.
Proof.
  induction m as [|[k1 v1] m IH]; [done|]. simpl.
  rewrite (String.eqb_sym k k1).
  destruct (String.eqb k1 k) eqn:Hk; simpl.
  - by rewrite String.eqb_sym, Hk.
  - by rewrite String.eqb_sym, Hk.
Qed.

Lemma scalar_lines_set_palette (m : dict) (v : json) :
  scalar_lines (dict_set m "palette" v) = scalar_lines m.
Proof.
  unfold scalar_lines. f_equal.
  induction m as [|[k1 v1] m IH]; [done|].
  unfold dict_set in *. cbn [map fst].
  destruct (String.eqb "palette" k1) eqn:Hk.
  - apply String.eqb_eq in Hk as <-. cbn [List.filter]. by rewrite IH.
  - cbn [List.filter]. rewrite IH. reflexivity.
Qed.

(** The decimal index, with the [=] that follows it, identifies the index. *)
Lemma palette_line_index (i j : nat) (a b : json) :
  i < 16 -> j < 16 -> palette_line i a = palette_line j b -> i = j.
Proof.
  intros Hi Hj. unfold palette_line.
  do 16 (destruct i as [|i]; [
    do 16 (destruct j as [|j]; [first [reflexivity | by intros [=]]|]); lia |]).
  lia.
Qed.

Lemma palette_loop_filter (palette : dict) (indices : list nat) :
  palette_lines palette indices =
    map (fun i => palette_line i (hex_code_of palette i))
        (List.filter (fun i => truthy (hex_code_of palette i)) indices) /\
  palette_warnings palette indices =
    map (fun i => Print (palette_warning i))
        (List.filter (fun i => negb (truthy (hex_code_of palette i))) indices).
Proof.
  unfold palette_lines, palette_warnings.
  induction indices as [|i indices [IHl IHw]]; [done|].
  cbn [flat_map List.filter]. rewrite IHl, IHw.
  by destruct (truthy (hex_code_of palette i)).
Qed.

(** C9: a palette index whose value is present but falsy (the empty string,
    [null], [0], [false], an empty list or mapping) is treated exactly like an
    absent one.  [convert_theme_to_conf] returns the palette lines of the
    indices with a truthy value, in ascending order, followed by the other
    keys, and logs the warnings of the other indices: the falsy index is
    among the warned ones and not among the emitted ones, so its warning is
    logged and no [palette = i=...] line is produced for it; the palette loop
    behaves the same, and the whole conversion is that of the document with
    the palette key deleted. *)
Theorem convert_falsy_index_like_absent
    (theme_data palette : dict) (i : nat) (v : json) (w : World) :
  dict_get theme_data "palette" = Some (JObj palette) ->
  i < 16 ->
  dict_get palette (Py.str_nat i) = Some v ->
  truthy v = false ->
  let present := List.filter (fun j => truthy (hex_code_of palette j)) (seq 0 16) in
  let missing :=
    List.filter (fun j => negb (truthy (hex_code_of palette j))) (seq 0 16) in
  let lines := map (fun j => palette_line j (hex_code_of palette j)) present in
  let warnings := map (fun j => Print (palette_warning j)) missing in
  convert_theme_to_conf (JObj theme_data) w =
    (Ok (Py.join nl (lines ++ scalar_lines theme_data) +:+ nl),
     add_trace w warnings) /\
  palette_loop (JObj palette) (seq 0 16) [] w = (Ok lines, add_trace w warnings) /\
  In i missing /\
  ~ In i present /\
  In (Print (palette_warning i)) warnings /\
  (forall hex_code, ~ In (palette_line i hex_code) lines) /\
  dict_get (dict_del palette (Py.str_nat i)) (Py.str_nat i) = None /\
  convert_theme_to_conf (JObj theme_data) w =
  convert_theme_to_conf
    (JObj (dict_set theme_data "palette" (JObj (dict_del palette (Py.str_nat i))))) w.
Proof.
  intros Hpal Hi Hget Hfalsy present missing lines warnings.
  assert (Hhex : hex_code_of palette i = v) by (unfold hex_code_of; by rewrite Hget).
  destruct (palette_loop_filter palette (seq 0 16)) as [Hlines Hwarn].
  fold present lines in Hlines. fold missing warnings in Hwarn.
  assert (In i missing) as Hmissing.
  { apply filter_In. split; [apply in_seq; lia|]. by rewrite Hhex, Hfalsy. }
  assert (~ In i present) as Hpresent.
  { intros [_ Ht]%filter_In. rewrite Hhex in Ht. congruence. }
  split; [|split; [|split; [|split; [|split; [|split; [|split]]]]]]; try done.
  - rewrite (convert_run theme_data palette) by (unfold palette_of; by rewrite Hpal).
    by rewrite Hlines, Hwarn.
  - by rewrite palette_loop_run, Hlines, Hwarn.
  - apply in_map_iff. by exists i.
  - intros hex_code Hin. apply in_map_iff in Hin as [j [Heq Hj]].
    assert (j < 16) as Hlt.
    { apply filter_In in Hj as [Hj%in_seq _]. lia. }
    apply palette_line_index in Heq; [|done|done]. by subst j.
  - rewrite dict_get_del. by rewrite String.eqb_refl.
  - rewrite (convert_run theme_data palette) by (unfold palette_of; by rewrite Hpal).
    rewrite (convert_run _ (dict_del palette (Py.str_nat i))).
    + rewrite scalar_lines_set_palette.
      destruct (palette_loop_del palette _ v (seq 0 16) Hget Hfalsy) as [-> ->].
      reflexivity.
    + unfold palette_of. by rewrite (dict_get_set _ _ _ _ Hpal).
Qed.

Lemma convert_falsy_index_like_absent_witness :
  convert_theme_to_conf (JObj empty_slot_document) empty_world =
    (Ok ("palette = 0=#111111" +:+ nl +:+ "background = #111111" +:+ nl),
     add_trace empty_world (map (fun j => Print (palette_warning j)) (seq 1 15))) /\
  In (Print (palette_warning 3)) (map (fun j => Print (palette_warning j)) (seq 1 15)) /\
  convert_theme_to_conf (JObj empty_slot_document) empty_world =
  convert_theme_to_conf
    (JObj [("palette", JObj [("0", JStr "#111111")]); ("background", JStr "#111111")])
    empty_world.
Proof.
  destruct (convert_falsy_index_like_absent empty_slot_document
              [("0", JStr "#111111"); ("3", JStr EmptyString)] 3 (JStr EmptyString)
              empty_world eq_refl ltac:(lia) eq_refl eq_refl)
    as (Hrun & _ & _ & _ & Hwarn & _ & _ & Hsame).
  split; [exact Hrun|]. split; [exact Hwarn|exact Hsame].
Defined.

(** ** The privileged writer *)

Lemma prompt_declined (env : Env) (theme_name conf_content answer : string)
    (rest : list string) (fs : gmap string string) (tr : list event) :
  Py.lower (Py.strip answer) <> "y" ->
  prompt_and_attempt_sudo_save env theme_name conf_content
    {| stdin := answer :: rest; files := fs; trace := tr |} =
  (Ok tt, {| stdin := rest; files := fs;
             trace := tr ++ [Input sudo_prompt answer; Print skipping_message] |}).
Proof.
  intros Hno. apply String.eqb_neq in Hno.
  unfold prompt_and_attempt_sudo_save, mbind, M_bind, input. cbn [stdin files trace].
  rewrite Hno. cbn [negb]. unfold print, emit. cbn [stdin files trace].
  by rewrite <- app_assoc.
Qed.

Lemma prompt_accepted (env : Env) (theme_name conf_content answer : string)
    (rest : list string) (fs : gmap string string) (tr : list event) :
  Py.lower (Py.strip answer) = "y" ->
  prompt_and_attempt_sudo_save env theme_name conf_content
    {| stdin := answer :: rest; files := fs; trace := tr |} =
  try_except
    (_attempt_save_with_sudo env conf_content sudo_themes_dir
       (path_join sudo_themes_dir (Py.lower theme_name)))
    (fun ex => match ex with
               | SystemExit _ => None
               | _ => Some (print ("sudo attempt failed: " +:+ exn_str ex))
               end)
    {| stdin := rest; files := fs; trace := tr ++ [Input sudo_prompt answer] |}.
Proof.
  intros Hyes. apply String.eqb_eq in Hyes.
  unfold prompt_and_attempt_sudo_save, mbind, M_bind, input. cbn [stdin files trace].
  rewrite Hyes. reflexivity.
Qed.

Ltac run_step :=
  unfold subprocess_run, write_temp_file, os_remove, print, emit, get_files,
    set_files, raise, mbind, M_bind, mret, M_ret;
  cbn [stdin files trace fst snd].

Lemma attempt_save_mkdir_fails (env : Env) (conf dir path : string) (w : World)
    (rc : Z) (fs1 : gmap string string) :
  env_run env ["sudo"; "mkdir"; "-p"; dir] (files w) = (rc, fs1) ->
  rc <> 0%Z ->
  _attempt_save_with_sudo env conf dir path w =
  (Raise (RuntimeError ("sudo mkdir returned non-zero exit status " +:+ Py.str_int rc)),
   {| stdin := stdin w; files := fs1;
      trace := trace w ++ [Print requesting_message;
                           Run ["sudo"; "mkdir"; "-p"; dir] rc] |}).
Proof.
  intros Hrun Hrc. apply Z.eqb_neq in Hrc.
  unfold _attempt_save_with_sudo. run_step. rewrite Hrun. run_step.
  rewrite Hrc. cbn [negb]. run_step. by rewrite <- app_assoc.
Qed.

Lemma attempt_save_mv_fails (env : Env) (conf dir path : string) (w : World)
    (rc : Z) (fs1 fs3 : gmap string string) :
  let tmp_path := env_mktemp env fs1 in
  env_run env ["sudo"; "mkdir"; "-p"; dir] (files w) = (0%Z, fs1) ->
  env_run env ["sudo"; "mv"; tmp_path; path] (<[tmp_path := conf]> fs1) = (rc, fs3) ->
  rc <> 0%Z ->
  _attempt_save_with_sudo env conf dir path w =
  (Raise (RuntimeError ("sudo mv returned non-zero exit status " +:+ Py.str_int rc)),
   {| stdin := stdin w; files := delete tmp_path fs3;
      trace := trace w ++ [Print requesting_message;
                           Run ["sudo"; "mkdir"; "-p"; dir] 0;
                           TempFile tmp_path conf;
                           Run ["sudo"; "mv"; tmp_path; path] rc;
                           Remove tmp_path] |}).
Proof.
  intros tmp_path Hmkdir Hmv Hrc. apply Z.eqb_neq in Hrc.
  unfold _attempt_save_with_sudo. run_step. rewrite Hmkdir. run_step.
  cbn [Z.eqb negb]. run_step. fold tmp_path. rewrite Hmv. run_step.
  rewrite Hrc. cbn [negb]. unfold try_except. run_step.
  rewrite <- !app_assoc. cbn [app].
  destruct (fs3 !! tmp_path) eqn:Hlook; cbn [except_OSError]; run_step.
  - reflexivity.
  - by rewrite delete_id.
Qed.

Lemma attempt_save_succeeds (env : Env) (conf dir path : string) (w : World)
    (fs1 fs3 : gmap string string) :
  let tmp_path := env_mktemp env fs1 in
  env_run env ["sudo"; "mkdir"; "-p"; dir] (files w) = (0%Z, fs1) ->
  env_run env ["sudo"; "mv"; tmp_path; path] (<[tmp_path := conf]> fs1) = (0%Z, fs3) ->
  _attempt_save_with_sudo env conf dir path w =
  (Ok tt,
   {| stdin := stdin w; files := fs3;
      trace := trace w ++ [Print requesting_message;
                           Run ["sudo"; "mkdir"; "-p"; dir] 0;
                           TempFile tmp_path conf;
                           Run ["sudo"; "mv"; tmp_path; path] 0;
                           Print ("Stripped theme saved successfully via sudo to " +:+ path)] |}).
Proof.
  intros tmp_path Hmkdir Hmv.
  unfold _attempt_save_with_sudo. run_step. rewrite Hmkdir. run_step.
  cbn [Z.eqb negb]. run_step. fold tmp_path. rewrite Hmv. run_step.
  cbn [Z.eqb negb]. run_step. rewrite <- !app_assoc. reflexivity.
Qed.

(** What [except Exception as ex] prints in [prompt_and_attempt_sudo_save]. *)
Lemma prompt_accepted_mv_fails (env : Env) (theme_name conf answer : string)
    (rest : list string) (fs fs1 fs3 : gmap string string) (tr : list event) (rc : Z) :
  let target_path := path_join sudo_themes_dir (Py.lower theme_name) in
  let tmp_path := env_mktemp env fs1 in
  Py.lower (Py.strip answer) = "y" ->
  env_run env ["sudo"; "mkdir"; "-p"; sudo_themes_dir] fs = (0%Z, fs1) ->
  env_run env ["sudo"; "mv"; tmp_path; target_path] (<[tmp_path := conf]> fs1) = (rc, fs3) ->
  rc <> 0%Z ->
  prompt_and_attempt_sudo_save env theme_name conf
    {| stdin := answer :: rest; files := fs; trace := tr |} =
  (Ok tt,
   {| stdin := rest; files := delete tmp_path fs3;
      trace := tr ++ [Input sudo_prompt answer;
                      Print requesting_message;
                      Run ["sudo"; "mkdir"; "-p"; sudo_themes_dir] 0;
                      TempFile tmp_path conf;
                      Run ["sudo"; "mv"; tmp_path; target_path] rc;
                      Remove tmp_path;
                      Print ("sudo attempt failed: sudo mv returned non-zero exit status "
                             +:+ Py.str_int rc)] |}).
Proof.
  intros target_path tmp_path Hyes Hmkdir Hmv Hrc.
  rewrite prompt_accepted by done. unfold try_except.
  rewrite (attempt_save_mv_fails env conf _ _ _ rc fs1 fs3) by done.
  run_step. cbn [exn_str]. rewrite <- !app_assoc. reflexivity.
Qed.

(** The writer hands over to the consent prompt when the directory cannot be
    created, or the file cannot be written, for lack of permission. *)
Lemma save_conf_denied (env : Env) (theme_name conf : string) (w : World) (e : oserror) :
  permission_denied e = true ->
  (env_makedirs env themes_dir = Some e ->
   save_conf_to_ghostty env theme_name conf w =
   prompt_and_attempt_sudo_save env theme_name conf
     (add_trace w [Makedirs themes_dir (Some e);
                   Print ("Error ensuring Ghostty themes directory exists at " +:+
                          themes_dir +:+ ": " +:+ strerror e)])) /\
  (env_makedirs env themes_dir = None ->
   env_open_w env (path_join themes_dir (Py.lower theme_name)) = Some e ->
   save_conf_to_ghostty env theme_name conf w =
   prompt_and_attempt_sudo_save env theme_name conf
     (add_trace w [Makedirs themes_dir None;
                   OpenWrite (path_join themes_dir (Py.lower theme_name)) conf (Some e);
                   Print ("Error writing stripped theme to " +:+
                          path_join themes_dir (Py.lower theme_name) +:+ ": " +:+
                          strerror e)])).
Proof.
  intros Hden. unfold permission_denied in Hden. split.
  - intros Hmk. unfold save_conf_to_ghostty, try_except, os_makedirs. run_step.
    fold themes_dir. rewrite Hmk. run_step. cbn [except_OSError]. run_step.
    rewrite Hden. unfold add_trace. rewrite <- !app_assoc. cbn [app].
    destruct (prompt_and_attempt_sudo_save _ _ _ _) as [[[]|ex] w']; reflexivity.
  - intros Hmk Hop. unfold save_conf_to_ghostty, try_except, os_makedirs, write_file.
    run_step. fold themes_dir. rewrite Hmk. run_step. rewrite Hop. run_step.
    cbn [except_OSError]. run_step. rewrite Hden.
    unfold add_trace. rewrite <- !app_assoc. cbn [app]. reflexivity.
Qed.

(** C4: when the initial attempt fails with permission denied, at the
    directory creation or at the write, and the operator's answer is not
    affirmative, the writer returns normally in the Aborted state, its last
    act being the message that the theme was not saved; it invokes no
    elevated command and leaves the files as they were. *)
Theorem declined_consent_aborts (env : Env) (theme_name conf answer : string)
    (rest : list string) (fs : gmap string string) (tr : list event) (e : oserror) :
  env_makedirs env themes_dir = Some e \/
  (env_makedirs env themes_dir = None /\
   env_open_w env (path_join themes_dir (Py.lower theme_name)) = Some e) ->
  permission_denied e = true ->
  Py.lower (Py.strip answer) <> "y" ->
  exists evs,
    save_conf_to_ghostty env theme_name conf
      {| stdin := answer :: rest; files := fs; trace := tr |} =
    (Ok tt, {| stdin := rest; files := fs; trace := tr ++ evs |}) /\
    writer_state_of evs = Some Aborted /\
    last evs = Some (Print skipping_message) /\
    elevated_commands evs = [].
Proof.
  intros Hfail Hden Hno.
  destruct (save_conf_denied env theme_name conf
              {| stdin := answer :: rest; files := fs; trace := tr |} e Hden)
    as [Hmk Hop].
  destruct Hfail as [Hfail|[Hfail1 Hfail2]].
  - rewrite (Hmk Hfail). unfold add_trace. cbn [stdin files trace].
    rewrite prompt_declined by done. eexists. split.
    + rewrite <- app_assoc. reflexivity.
    + repeat split; reflexivity.
  - rewrite (Hop Hfail1 Hfail2). unfold add_trace. cbn [stdin files trace].
    rewrite prompt_declined by done. eexists. split.
    + rewrite <- app_assoc. reflexivity.
    + repeat split; reflexivity.
Qed.

Lemma declined_consent_aborts_witness :
  exists evs,
    save_conf_to_ghostty locked_env "dungeon" "background = #111111"
      {| stdin := ["n"]; files := ∅; trace := [] |} =
    (Ok tt, {| stdin := []; files := ∅; trace := [] ++ evs |}) /\
    writer_state_of evs = Some Aborted /\
    last evs = Some (Print skipping_message) /\
    elevated_commands evs = [].
Proof.
  apply (declined_consent_aborts locked_env "dungeon" "background = #111111" "n"
           [] ∅ [] EACCES).
  - right. split; reflexivity.
  - reflexivity.
  - vm_compute. discriminate.
Defined.

(** C5: after an affirmative answer, when the elevated directory creation
    succeeds and the elevated move of the temporary file exits non-zero, the
    writer returns normally in the Failed state, reporting the exit status;
    it has attempted the deletion of the temporary file, whose failure is
    ignored, and the temporary file no longer exists. *)
Theorem failed_move_removes_temp (env : Env) (theme_name conf answer : string)
    (rest : list string) (fs fs1 fs3 : gmap string string) (tr : list event) (rc : Z) :
  let target_path := path_join sudo_themes_dir (Py.lower theme_name) in
  let tmp_path := env_mktemp env fs1 in
  Py.lower (Py.strip answer) = "y" ->
  env_run env ["sudo"; "mkdir"; "-p"; sudo_themes_dir] fs = (0%Z, fs1) ->
  env_run env ["sudo"; "mv"; tmp_path; target_path] (<[tmp_path := conf]> fs1) = (rc, fs3) ->
  rc <> 0%Z ->
  exists w' evs,
    prompt_and_attempt_sudo_save env theme_name conf
      {| stdin := answer :: rest; files := fs; trace := tr |} = (Ok tt, w') /\
    trace w' = tr ++ evs /\
    writer_state_of evs = Some Failed /\
    last evs = Some (Print ("sudo attempt failed: sudo mv returned non-zero exit status "
                            +:+ Py.str_int rc)) /\
    In (Run ["sudo"; "mv"; tmp_path; target_path] rc) evs /\
    In (Remove tmp_path) evs /\
    files w' !! tmp_path = None.
Proof.
  intros target_path tmp_path Hyes Hmkdir Hmv Hrc.
  eexists. eexists. split.
  - by apply (prompt_accepted_mv_fails env theme_name conf answer rest fs fs1 fs3 tr rc).
  - cbn [trace files]. split; [reflexivity|]. split; [reflexivity|].
    split; [reflexivity|]. split; [|split].
    + do 4 right. by left.
    + do 5 right. by left.
    + apply lookup_delete_eq.
Qed.

Lemma failed_move_removes_temp_witness :
  exists w' evs,
    prompt_and_attempt_sudo_save locked_env "dungeon" "background = #111111"
      {| stdin := ["y"]; files := ∅; trace := [] |} = (Ok tt, w') /\
    trace w' = [] ++ evs /\
    writer_state_of evs = Some Failed /\
    last evs = Some (Print "sudo attempt failed: sudo mv returned non-zero exit status 1") /\
    In (Run ["sudo"; "mv"; "/tmp/tmpab12cd";
             "/Applications/Ghostty.app/Contents/Resources/ghostty/themes/dungeon"] 1) evs /\
    In (Remove "/tmp/tmpab12cd") evs /\
    files w' !! "/tmp/tmpab12cd" = None.
Proof.
  apply (failed_move_removes_temp locked_env "dungeon" "background = #111111" "y"
           [] ∅ ∅ (<["/tmp/tmpab12cd" := "background = #111111"]> ∅) [] 1).
  - reflexivity.
  - reflexivity.
  - reflexivity.
  - discriminate.
Defined.

(** Once the answer is affirmative the first elevated command is invoked,
    whatever it and the later steps return. *)
Lemma prompt_accepted_invokes_sudo (env : Env) (theme_name conf answer : string)
    (rest : list string) (fs : gmap string string) (tr : list event) :
  Py.lower (Py.strip answer) = "y" ->
  exists r w' rc evs,
    prompt_and_attempt_sudo_save env theme_name conf
      {| stdin := answer :: rest; files := fs; trace := tr |} = (r, w') /\
    trace w' = tr ++ Input sudo_prompt answer :: Print requesting_message ::
                     Run ["sudo"; "mkdir"; "-p"; sudo_themes_dir] rc :: evs.
Proof.
  intros Hyes. rewrite prompt_accepted by done. unfold try_except.
  set (w1 := {| stdin := rest; files := fs; trace := tr ++ [Input sudo_prompt answer] |}).
  set (target_path := path_join sudo_themes_dir (Py.lower theme_name)).
  destruct (env_run env ["sudo"; "mkdir"; "-p"; sudo_themes_dir] (files w1))
    as [rc1 fs1] eqn:Hmkdir.
  destruct (Z.eq_dec rc1 0%Z) as [->|Hrc1].
  - destruct (env_run env ["sudo"; "mv"; env_mktemp env fs1; target_path]
                (<[env_mktemp env fs1 := conf]> fs1)) as [rc2 fs3] eqn:Hmv.
    destruct (Z.eq_dec rc2 0%Z) as [->|Hrc2].
    + rewrite (attempt_save_succeeds env conf _ _ w1 fs1 fs3) by done.
      do 4 eexists. split; [reflexivity|]. cbn [trace w1].
      rewrite <- app_assoc. reflexivity.
    + rewrite (attempt_save_mv_fails env conf _ _ w1 rc2 fs1 fs3) by done.
      run_step. do 4 eexists. split; [reflexivity|]. cbn [trace w1].
      rewrite <- !app_assoc. reflexivity.
  - rewrite (attempt_save_mkdir_fails env conf _ _ w1 rc1 fs1) by done.
    run_step. do 4 eexists. split; [reflexivity|]. cbn [trace w1].
    rewrite <- !app_assoc. reflexivity.
Qed.

(** C10: the answer to the consent prompt is affirmative only when, stripped
    and lowercased, it is exactly [y].  Any other answer, [yes] included,
    ends the writer in the Aborted state with no elevated command run and the
    files untouched; the answer [y] does start the elevated commands. *)
Theorem consent_requires_exact_y (env : Env) (theme_name conf answer : string)
    (rest : list string) (fs : gmap string string) (tr : list event) :
  let w := {| stdin := answer :: rest; files := fs; trace := tr |} in
  (Py.lower (Py.strip answer) <> "y" ->
   prompt_and_attempt_sudo_save env theme_name conf w =
     (Ok tt, {| stdin := rest; files := fs;
                trace := tr ++ [Input sudo_prompt answer; Print skipping_message] |}) /\
   writer_state_of [Input sudo_prompt answer; Print skipping_message] = Some Aborted /\
   elevated_commands [Input sudo_prompt answer; Print skipping_message] = []) /\
  (Py.lower (Py.strip answer) = "y" ->
   exists r w' rc evs,
     prompt_and_attempt_sudo_save env theme_name conf w = (r, w') /\
     trace w' = tr ++ Input sudo_prompt answer :: Print requesting_message ::
                      Run ["sudo"; "mkdir"; "-p"; sudo_themes_dir] rc :: evs) /\
  Py.lower (Py.strip "yes") <> "y".
Proof.
  intros w. split; [|split].
  - intros Hno. split; [by apply prompt_declined|]. split; reflexivity.
  - intros Hyes. by apply prompt_accepted_invokes_sudo.
  - vm_compute. discriminate.
Qed.

Lemma consent_requires_exact_y_witness :
  prompt_and_attempt_sudo_save sudo_env "dungeon" "background = #111111"
    {| stdin := ["yes"]; files := ∅; trace := [] |} =
  (Ok tt, {| stdin := []; files := ∅;
             trace := [Input sudo_prompt "yes"; Print skipping_message] |}) /\
  exists r w' rc evs,
    prompt_and_attempt_sudo_save sudo_env "dungeon" "background = #111111"
      {| stdin := [" Y "]; files := ∅; trace := [] |} = (r, w') /\
    trace w' = [] ++ Input sudo_prompt " Y " :: Print requesting_message ::
                     Run ["sudo"; "mkdir"; "-p"; sudo_themes_dir] rc :: evs.
Proof.
  split.
  - apply (consent_requires_exact_y sudo_env "dungeon" "background = #111111" "yes"
             [] ∅ []).
    vm_compute. discriminate.
  - apply (consent_requires_exact_y sudo_env "dungeon" "background = #111111" " Y "
             [] ∅ []).
    reflexivity.
Defined.

(** ** The two target paths *)

(** C3 fails on the code: for the theme [Dungeon], when the write is refused
    for lack of permission and the operator consents, the unprivileged
    attempt targets [.../Resources/themes/dungeon] while [sudo mkdir] and
    [sudo mv] target [.../Resources/ghostty/themes/dungeon]; the file ends up
    at the second path, and the two paths differ. *)
Theorem escalated_write_targets_other_path :
  let w' := snd (save_conf_to_ghostty sudo_env "Dungeon" "background = #111111"
                   {| stdin := ["y"]; files := ∅; trace := [] |}) in
  trace w' =
    [Makedirs "/Applications/Ghostty.app/Contents/Resources/themes" None;
     OpenWrite "/Applications/Ghostty.app/Contents/Resources/themes/dungeon"
       "background = #111111" (Some EACCES);
     Print "Error writing stripped theme to /Applications/Ghostty.app/Contents/Resources/themes/dungeon: [Errno 13] Permission denied";
     Input sudo_prompt "y";
     Print requesting_message;
     Run ["sudo"; "mkdir"; "-p";
          "/Applications/Ghostty.app/Contents/Resources/ghostty/themes"] 0;
     TempFile "/tmp/tmpab12cd" "background = #111111";
     Run ["sudo"; "mv"; "/tmp/tmpab12cd";
          "/Applications/Ghostty.app/Contents/Resources/ghostty/themes/dungeon"] 0;
     Print "Stripped theme saved successfully via sudo to /Applications/Ghostty.app/Contents/Resources/ghostty/themes/dungeon"] /\
  files w' !! "/Applications/Ghostty.app/Contents/Resources/ghostty/themes/dungeon"
    = Some "background = #111111" /\
  files w' !! "/Applications/Ghostty.app/Contents/Resources/themes/dungeon" = None /\
  path_join themes_dir (Py.lower "Dungeon") <>
  path_join sudo_themes_dir (Py.lower "Dungeon").
Proof.
  cbv zeta. split; [vm_compute; reflexivity|].
  split; [vm_compute; reflexivity|]. split; [vm_compute; reflexivity|].
  vm_compute. discriminate.
Qed.

Lemma writer_paths_differ (theme_name : string) :
  String.prefix "/" (Py.lower theme_name) = false ->
  path_join themes_dir (Py.lower theme_name) <>
  path_join sudo_themes_dir (Py.lower theme_name).
Proof.
  intros Hrel. unfold path_join. rewrite Hrel.
  change (String.eqb themes_dir EmptyString ||
          String.eqb (String.substring (String.length themes_dir - 1) 1 themes_dir) "/")
    with false.
  change (String.eqb sudo_themes_dir EmptyString ||
          String.eqb (String.substring (String.length sudo_themes_dir - 1) 1
                        sudo_themes_dir) "/")
    with false.
  unfold themes_dir, sudo_themes_dir. simpl. intros [=].
Qed.

(** ** The theme-name prompt *)

Lemma get_theme_name_step (raw : string) (rest : list string)
    (fs : gmap string string) (tr : list event) :
  get_theme_name {| stdin := raw :: rest; files := fs; trace := tr |} =
  if name_accepted (Py.lower (Py.strip raw)) then
    (Ok (Py.map_chars sanitize_char (Py.lower (Py.strip raw))),
     {| stdin := rest; files := fs; trace := tr ++ [Input name_prompt raw] |})
  else
    get_theme_name
      {| stdin := rest; files := fs;
         trace := tr ++ [Input name_prompt raw; Print invalid_name_message] |}.
Proof.
  unfold get_theme_name. cbn [stdin get_theme_name_loop].
  unfold input. run_step.
  destruct (name_accepted (Py.lower (Py.strip raw))); [reflexivity|].
  run_step. by rewrite <- app_assoc.
Qed.

Lemma get_theme_name_eof (fs : gmap string string) (tr : list event) :
  get_theme_name {| stdin := []; files := fs; trace := tr |} =
  (Raise EOFError, {| stdin := []; files := fs; trace := tr |}).
Proof. reflexivity. Qed.

Lemma name_accepted_iff (theme_name : string) :
  name_accepted theme_name = true <->
  theme_name <> EmptyString /\
  forall c, In c refused_chars -> Py.char_in c theme_name = false.
Proof.
  unfold name_accepted. rewrite andb_true_iff, !negb_true_iff.
  rewrite String.eqb_neq.
  split; intros [Hne Hc]; (split; [done|]).
  - intros c Hin. destruct (Py.char_in c theme_name) eqn:Hch; [|done].
    assert (existsb (fun c => Py.char_in c theme_name) refused_chars = true)
      as Hex by (apply existsb_exists; eauto).
    congruence.
  - destruct (existsb _ refused_chars) eqn:Hex; [|done].
    apply existsb_exists in Hex as [c [Hin Hch]]. rewrite (Hc c Hin) in Hch. done.
Qed.

Lemma sanitize_length (s : string) :
  String.length (Py.map_chars sanitize_char s) = String.length s.
Proof. induction s as [|c s IH]; simpl; congruence. Qed.

Lemma sanitize_get (s : string) :
  forall n c, String.get n s = Some c ->
    String.get n (Py.map_chars sanitize_char s) =
    Some (if allowed_char c then c else "_"%char).
Proof.
  induction s as [|c0 s IH]; intros n c; [done|].
  destruct n as [|n]; simpl.
  - intros [= ->]. reflexivity.
  - apply IH.
Qed.

Lemma sanitize_char_allowed (c : ascii) : allowed_char (sanitize_char c) = true.
Proof.
  unfold sanitize_char. fold (allowed_char c).
  destruct (allowed_char c) eqn:Hc; [done|reflexivity].
Qed.

Lemma sanitize_allowed (s : string) (c : ascii) :
  Py.char_in c (Py.map_chars sanitize_char s) = true -> allowed_char c = true.
Proof.
  induction s as [|c0 s IH]; simpl; [done|].
  intros [Heq|Hin]%orb_true_iff; [|by apply IH].
  apply Ascii.eqb_eq in Heq as ->. apply sanitize_char_allowed.
Qed.

(** C7 (amended): a line read by the theme-name prompt is rejected, and the
    operator asked again, exactly when its stripped and lowercased form is
    empty or holds one of the eleven refused characters (space, slash,
    backslash, dot, colon, star, question mark, double quote, angle brackets,
    bar).  Any other line is accepted, and every character of it that is not
    a letter, a digit, [-] or [_] is replaced by [_]: the returned name has
    the length of the stripped input and holds allowed characters only. *)
Theorem get_theme_name_rejects_or_sanitizes (raw : string) (rest : list string)
    (fs : gmap string string) (tr : list event) :
  let theme_name := Py.lower (Py.strip raw) in
  let name := Py.map_chars sanitize_char theme_name in
  get_theme_name {| stdin := raw :: rest; files := fs; trace := tr |} =
    (if name_accepted theme_name then
       (Ok name, {| stdin := rest; files := fs; trace := tr ++ [Input name_prompt raw] |})
     else
       get_theme_name
         {| stdin := rest; files := fs;
            trace := tr ++ [Input name_prompt raw; Print invalid_name_message] |}) /\
  (name_accepted theme_name = true <->
   theme_name <> EmptyString /\
   forall c, In c refused_chars -> Py.char_in c theme_name = false) /\
  String.length name = String.length theme_name /\
  (forall n c, String.get n theme_name = Some c ->
     String.get n name = Some (if allowed_char c then c else "_"%char)) /\
  (forall c, Py.char_in c name = true -> allowed_char c = true).
Proof.
  intros theme_name name.
  split; [apply get_theme_name_step|].
  split; [apply name_accepted_iff|].
  split; [apply sanitize_length|].
  split; [apply sanitize_get|apply sanitize_allowed].
Qed.

(** C7 as stated fails: [my!theme] holds a character that is neither a
    letter, a digit, [-] nor [_], yet it is not rejected; the prompt returns
    the silently altered name [my_theme] without asking again. *)
Lemma invalid_character_is_replaced :
  Py.char_in "!" (Py.lower (Py.strip "my!theme")) = true /\
  allowed_char "!" = false /\
  get_theme_name {| stdin := ["my!theme"]; files := ∅; trace := [] |} =
  (Ok "my_theme",
   {| stdin := []; files := ∅; trace := [Input name_prompt "my!theme"] |}).
Proof. repeat split. Qed.

(** ** A response that is not valid JSON *)

Lemma load_api_key_ok (env : Env) (w w' : World) (api_key : string) :
  load_api_key env w = (Ok api_key, w') ->
  w' = w /\ String.eqb api_key EmptyString = false.
Proof.
  unfold load_api_key, api_key_missing.
  destruct (env_api_key env) as [key|]; [|run_step; intros [=]].
  destruct (String.eqb key EmptyString) eqn:Hempty; [run_step; intros [=]|].
  destruct (Py.contains "YOUR_API_KEY_HERE" key); run_step; intros [=].
  by subst.
Qed.

Lemma get_theme_name_quiet (pending : list string) (fs : gmap string string) :
  forall (tr : list event) (r : result string) (w' : World),
    get_theme_name {| stdin := pending; files := fs; trace := tr |} = (r, w') ->
    files w' = fs /\ exists evs, trace w' = tr ++ evs /\ persisting evs = [].
Proof.
  induction pending as [|raw rest IH]; intros tr r w'.
  - rewrite get_theme_name_eof. intros [= <- <-]. split; [done|].
    exists []. by rewrite app_nil_r.
  - rewrite get_theme_name_step.
    destruct (name_accepted (Py.lower (Py.strip raw))).
    + intros [= <- <-]. split; [done|]. by exists [Input name_prompt raw].
    + intros Hrun. apply IH in Hrun as [Hfiles [evs [Htrace Hquiet]]].
      split; [done|].
      exists ([Input name_prompt raw; Print invalid_name_message] ++ evs).
      split; [by rewrite Htrace, <- app_assoc|done].
Qed.

Lemma generate_invalid_json (json_loads : string -> string + json) (env : Env)
    (api_key theme_name s msg : string) (w : World) :
  env_chat env theme_name = Completed (Some s) ->
  json_loads s = inl msg ->
  generate_ghostty_theme_json json_loads env api_key theme_name w =
  (Ok JNull, add_trace w (invalid_json_events theme_name s msg)).
Proof.
  intros Hchat Hloads. unfold generate_ghostty_theme_json. run_step.
  rewrite Hchat, Hloads. run_step.
  unfold add_trace, invalid_json_events.
  destruct (String.eqb s EmptyString); cbn [negb]; run_step;
    by rewrite <- !app_assoc.
Qed.

(** C8: in a run of [main] that obtains a key and a theme name, when the
    response of the generation service to that name is not valid JSON, the
    generation step reports the error and yields [None]; [main] then only
    prints that the generation failed and returns: neither the JSON file nor
    the flat configuration file is written, no directory is created and no
    command is run, and the files are those the run started with. *)
Theorem invalid_json_skips_persistence
    (json_loads : string -> string + json) (json_dump : json -> string) (env : Env)
    (w w2 : World) (api_key theme_name s msg : string) :
  fst (load_api_key env (add_trace w banner)) = Ok api_key ->
  get_theme_name (add_trace w banner) = (Ok theme_name, w2) ->
  env_chat env theme_name = Completed (Some s) ->
  json_loads s = inl msg ->
  generate_ghostty_theme_json json_loads env api_key theme_name w2 =
    (Ok JNull, add_trace w2 (invalid_json_events theme_name s msg)) /\
  exists w' evs,
    main json_loads json_dump env w = (Ok tt, w') /\
    files w' = files w /\
    trace w' = trace w ++ evs /\
    persisting evs = [] /\
    In (Print ("Error: OpenAI API did not return valid JSON. " +:+ msg)) evs /\
    last evs = Some (Print ("Failed to generate theme data for '" +:+ theme_name +:+ "'.")).
Proof.
  intros Hkey Hname Hchat Hloads.
  split; [by apply generate_invalid_json|].
  destruct (load_api_key env (add_trace w banner)) as [rk wk] eqn:Hload.
  cbn [fst] in Hkey. subst rk.
  destruct (load_api_key_ok _ _ _ _ Hload) as [-> Hnonempty].
  pose proof Hname as Hq. unfold add_trace in Hq. cbn [banner] in Hq.
  apply get_theme_name_quiet in Hq as [Hfiles [evs [Htrace Hquiet]]].
  exists (add_trace w2 (invalid_json_events theme_name s msg ++
            [Print ("Failed to generate theme data for '" +:+ theme_name +:+ "'.")])).
  exists (banner ++ evs ++ invalid_json_events theme_name s msg ++
            [Print ("Failed to generate theme data for '" +:+ theme_name +:+ "'.")]).
  split; [|split; [|split; [|split; [|split]]]].
  - unfold main. run_step.
    change ({| stdin := stdin w; files := files w;
               trace := (trace w ++ [Print "Ghostty Theme Generator"]) ++
                        [Print "-----------------------"] |})
      with (add_trace (add_trace w [Print "Ghostty Theme Generator"])
              [Print "-----------------------"]).
    rewrite add_trace_app. change ([Print "Ghostty Theme Generator"] ++
      [Print "-----------------------"]) with banner.
    rewrite Hload, Hnonempty, Hname.
    rewrite (generate_invalid_json json_loads env api_key theme_name s msg w2)
      by done.
    cbn [truthy]. run_step. unfold add_trace. cbn [stdin files trace].
    by rewrite <- app_assoc.
  - cbn [add_trace files]. cbn [files] in Hfiles. done.
  - cbn [add_trace trace]. cbn [trace] in Htrace. rewrite Htrace.
    by rewrite <- !app_assoc.
  - unfold persisting in *. rewrite !List.filter_app, Hquiet. reflexivity.
  - apply in_or_app. right. apply in_or_app. right. apply in_or_app. left.
    unfold invalid_json_events. do 2 right. by left.
  - rewrite !app_assoc. by rewrite last_snoc.
Qed.

(** ** Reading the flat output back *)

Lemma char_in_app (c : ascii) (s t : string) :
  Py.char_in c (s +:+ t) = Py.char_in c s || Py.char_in c t.
Proof.
  induction s as [|c0 s IH]; simpl; [done|]. rewrite IH. by rewrite orb_assoc.
Qed.

Lemma split_lines_cons (line rest : string) :
  newline_free line = true ->
  split_lines (line +:+ nl +:+ rest) = line :: split_lines rest.
Proof.
  unfold newline_free. induction line as [|c line IH]; [done|].
  cbn [Py.char_in]. rewrite negb_true_iff, orb_false_iff. intros [Hc Hline].
  cbn [String.append split_lines]. rewrite Ascii.eqb_sym, Hc.
  rewrite IH; [done|]. by rewrite Hline.
Qed.

Lemma split_lines_join (lines : list string) :
  lines <> [] ->
  forallb newline_free lines = true ->
  split_lines (Py.join nl lines +:+ nl) = lines ++ [EmptyString].
Proof.
  induction lines as [|line lines IH]; [done|]. intros _.
  cbn [forallb]. intros [Hline Hlines]%andb_true_iff.
  destruct lines as [|line' lines].
  - cbn [Py.join app].
    replace (line +:+ nl) with (line +:+ nl +:+ EmptyString).
    + by rewrite split_lines_cons.
    + f_equal.
  - change (Py.join nl (line :: line' :: lines))
      with (line +:+ nl +:+ Py.join nl (line' :: lines)).
    rewrite !string_app_assoc, split_lines_cons by done.
    rewrite IH by done. reflexivity.
Qed.

Lemma parse_conf_join (lines : list string) :
  forallb newline_free lines = true ->
  parse_conf (Py.join nl lines +:+ nl) = omap parse_line lines.
Proof.
  intros Hfree. unfold parse_conf. destruct lines as [|line lines]; [reflexivity|].
  rewrite split_lines_join by done.
  rewrite omap_app. cbn. by rewrite app_nil_r.
Qed.

Lemma prefix_separator_after_key (c : ascii) (key rest : string) :
  equals_free (String c key) = true ->
  String.prefix " = " (String c (key +:+ " = " +:+ rest)) = false.
Proof.
  unfold equals_free. cbn [Py.char_in].
  rewrite negb_true_iff, orb_false_iff. intros [_ Hkey].
  cbn [String.prefix].
  destruct (ascii_dec " " c); [|done].
  destruct key as [|c' key]; cbn [String.append String.prefix].
  - by destruct (ascii_dec "=" " ").
  - cbn [Py.char_in] in Hkey. apply orb_false_iff in Hkey as [Hc' _].
    destruct (ascii_dec "=" c') as [<-|]; [|done].
    by rewrite Ascii.eqb_refl in Hc'.
Qed.

(** A key free of [=] is what stands before the first [ = ] of its line. *)
Lemma partition_separator (key value : string) :
  equals_free key = true ->
  partition " = " (key +:+ " = " +:+ value) = Some (key, value).
Proof.
  induction key as [|c key IH]; intros Hfree; [by destruct value|].
  change (String c key +:+ " = " +:+ value) with (String c (key +:+ " = " +:+ value)).
  cbn [partition]. rewrite prefix_separator_after_key by done.
  rewrite IH; [done|].
  unfold equals_free in *. cbn [Py.char_in] in Hfree.
  apply negb_true_iff, orb_false_iff in Hfree as [_ ->]. done.
Qed.

Lemma partition_equals (index value : string) :
  equals_free index = true ->
  partition "=" (index +:+ "=" +:+ value) = Some (index, value).
Proof.
  unfold equals_free. induction index as [|c index IH]; [by destruct value|].
  cbn [Py.char_in]. rewrite negb_true_iff, orb_false_iff. intros [Hc Hindex].
  change (String c index +:+ "=" +:+ value) with (String c (index +:+ "=" +:+ value)).
  cbn [partition String.prefix].
  destruct (ascii_dec "=" c) as [<-|]; [by rewrite Ascii.eqb_refl in Hc|].
  rewrite IH; [done|]. by rewrite Hindex.
Qed.

Lemma str_nat_plain (i : nat) :
  i < 16 ->
  equals_free (Py.str_nat i) = true /\ newline_free (Py.str_nat i) = true.
Proof.
  intros Hi. do 16 (destruct i as [|i]; [by split|]). lia.
Qed.

Lemma parse_palette_line (i : nat) (s : string) :
  i < 16 ->
  parse_line (palette_line i (JStr s)) = Some (PaletteEntry (Py.str_nat i) (JStr s)).
Proof.
  intros Hi. unfold parse_line, palette_line. cbn [py_str].
  change ("palette = " +:+ Py.str_nat i +:+ "=" +:+ s)
    with ("palette" +:+ " = " +:+ (Py.str_nat i +:+ "=" +:+ s)).
  rewrite partition_separator by reflexivity.
  change (String.eqb "palette" "palette") with true. cbv iota.
  rewrite partition_equals; [done|]. by apply str_nat_plain.
Qed.

Lemma parse_scalar_line (key s : string) :
  String.eqb key "palette" = false ->
  equals_free key = true ->
  parse_line (scalar_line key (JStr s)) = Some (ScalarEntry key (JStr s)).
Proof.
  intros Hkey Hfree. unfold parse_line, scalar_line. cbn [py_str].
  rewrite partition_separator by done. by rewrite Hkey.
Qed.

Lemma newline_free_app (s t : string) :
  newline_free (s +:+ t) = newline_free s && newline_free t.
Proof. unfold newline_free. rewrite char_in_app. by rewrite negb_orb. Qed.

Lemma dict_get_In (m : dict) (k : string) (v : json) :
  dict_get m k = Some v -> In (k, v) m.
Proof.
  induction m as [|[k0 v0] m IH]; [done|]. simpl.
  destruct (String.eqb k k0) eqn:Hk.
  - apply String.eqb_eq in Hk as ->. intros [= ->]. by left.
  - intros Hget. right. by apply IH.
Qed.

Lemma In_dict_get (m : dict) (k : string) (v : json) :
  dict_wf m -> In (k, v) m -> dict_get m k = Some v.
Proof.
  unfold dict_wf, dict_keys.
  induction m as [|[k0 v0] m IH]; [done|]. cbn [map fst].
  intros Hwf. apply NoDup_cons in Hwf as [Hnotin Hwf].
  intros [[= -> ->]|Hin]; simpl.
  - by rewrite String.eqb_refl.
  - destruct (String.eqb k k0) eqn:Hk.
    + apply String.eqb_eq in Hk as ->. exfalso. apply Hnotin.
      apply list_elem_of_In. apply in_map_iff. by exists (k0, v).
    + by apply IH.
Qed.

Section Roundtrip.

Variables theme_data palette : dict.
Hypothesis Hpalette : palette_of theme_data = JObj palette.
Hypothesis Hwf : dict_wf palette.
Hypothesis Hentries : forallb palette_entry_ok palette = true.
Hypothesis Hscalars :
  forallb scalar_entry_ok (List.filter not_palette theme_data) = true.

Lemma palette_value_string (i : nat) :
  truthy (hex_code_of palette i) = true ->
  exists s, hex_code_of palette i = JStr s /\ newline_free s = true.
Proof using Hentries.
  unfold hex_code_of.
  destruct (dict_get palette (Py.str_nat i)) as [v|] eqn:Hget; [|done].
  intros _. apply dict_get_In in Hget.
  rewrite forallb_forall in Hentries. apply Hentries in Hget.
  unfold palette_entry_ok in Hget. cbn [fst snd] in Hget.
  apply andb_true_iff in Hget as [_ Hv].
  destruct v as [| | |s| |]; try done.
  apply andb_true_iff in Hv as [_ Hs]. by exists s.
Qed.

Lemma parse_palette_lines (indices : list nat) :
  (forall i, In i indices -> i < 16) ->
  omap parse_line (palette_lines palette indices) =
  flat_map (fun i => if truthy (hex_code_of palette i)
                     then [PaletteEntry (Py.str_nat i) (hex_code_of palette i)]
                     else []) indices /\
  forallb newline_free (palette_lines palette indices) = true.
Proof using Hentries.
  unfold palette_lines.
  induction indices as [|i indices IH]; intros Hlt; [done|].
  destruct IH as [IHp IHn]; [intros j Hj; apply Hlt; by right|].
  assert (i < 16) as Hi by (apply Hlt; by left).
  cbn [flat_map]. rewrite omap_app, forallb_app, IHp, IHn.
  destruct (truthy (hex_code_of palette i)) eqn:Ht; [|done].
  destruct (palette_value_string i Ht) as [s [-> Hs]].
  cbn [omap list_omap]. rewrite parse_palette_line by done.
  split; [done|]. cbn [forallb]. unfold palette_line. cbn [py_str].
  rewrite !newline_free_app, Hs.
  destruct (str_nat_plain i Hi) as [_ ->]. reflexivity.
Qed.

Lemma parse_scalar_lines :
  omap parse_line (scalar_lines theme_data) =
  map (fun kv => ScalarEntry (fst kv) (snd kv)) (List.filter not_palette theme_data) /\
  forallb newline_free (scalar_lines theme_data) = true.
Proof using Hscalars.
  unfold scalar_lines.
  assert (forallb not_palette (List.filter not_palette theme_data) = true) as Hnp.
  { apply forallb_forall. intros kv Hin. by apply filter_In in Hin as [_ ?]. }
  revert Hscalars Hnp.
  induction (List.filter not_palette theme_data) as [|[key value] items IH]; [done|].
  cbn [forallb]. intros [Hok Hrest]%andb_true_iff [Hkey Hnp]%andb_true_iff.
  destruct (IH Hrest Hnp) as [IHp IHn].
  unfold scalar_entry_ok in Hok. cbn [fst snd] in Hok.
  apply andb_true_iff in Hok as [[Hnl Heq]%andb_true_iff Hv].
  destruct value as [| | |s| |]; try done.
  unfold not_palette in Hkey. cbn [fst] in Hkey. apply negb_true_iff in Hkey.
  cbn [map omap list_omap fst snd forallb].
  rewrite parse_scalar_line by done. rewrite IHp, IHn.
  split; [done|]. unfold scalar_line. cbn [py_str].
  rewrite !newline_free_app, Hnl, Hv. reflexivity.
Qed.

Lemma palette_entries_same (e : conf_entry) :
  In e (flat_map (fun i => if truthy (hex_code_of palette i)
                           then [PaletteEntry (Py.str_nat i) (hex_code_of palette i)]
                           else []) (seq 0 16)) <->
  In e (map (fun kv => PaletteEntry (fst kv) (snd kv)) palette).
Proof using Hwf Hentries.
  rewrite in_flat_map, in_map_iff. split.
  - intros [i [_ Hin]].
    destruct (truthy (hex_code_of palette i)) eqn:Ht; [|done].
    destruct Hin as [<-|[]]. unfold hex_code_of in *.
    destruct (dict_get palette (Py.str_nat i)) as [v|] eqn:Hget; [|done].
    exists (Py.str_nat i, v). split; [done|]. by apply dict_get_In.
  - intros [[k v] [<- Hin]]. cbn [fst snd].
    pose proof Hentries as Hok. rewrite forallb_forall in Hok.
    specialize (Hok _ Hin). unfold palette_entry_ok in Hok. cbn [fst snd] in Hok.
    apply andb_true_iff in Hok as [Hidx Hv].
    unfold palette_index in Hidx. apply existsb_exists in Hidx as [i [Hi Hk]].
    apply String.eqb_eq in Hk as ->.
    exists i. split; [done|].
    unfold hex_code_of. rewrite (In_dict_get palette _ v Hwf Hin). cbn.
    destruct v as [| | |s| |]; try done.
    apply andb_true_iff in Hv as [Hs _]. cbn [truthy]. rewrite Hs. by left.
Qed.

(** The flat output of such a document reads back as its key/value pairs. *)
Lemma parse_convert (w : World) :
  exists text evs,
    convert_theme_to_conf (JObj theme_data) w = (Ok text, add_trace w evs) /\
    forall e, In e (parse_conf text) <-> In e (document_entries theme_data).
Proof using All.
  eexists. eexists. split; [by apply convert_run|].
  intros e.
  destruct (parse_palette_lines (seq 0 16)) as [Hpp Hpn].
  { intros i Hi. apply in_seq in Hi. lia. }
  destruct parse_scalar_lines as [Hsp Hsn].
  rewrite parse_conf_join by (rewrite forallb_app, Hpn, Hsn; reflexivity).
  rewrite omap_app, Hpp, Hsp.
  unfold document_entries. rewrite Hpalette.
  rewrite !in_app_iff. by rewrite palette_entries_same.
Qed.

End Roundtrip.

(** C6 (amended): for every theme document whose palette keys are indices
    0..15 with non-empty string values, whose other values are strings, in
    which no key or value holds a newline and no top-level key holds [=],
    reading the flat output of [convert_theme_to_conf] back (a line at each
    newline, cut at its first [ = ], a palette value cut at its first [=])
    recovers exactly the set of key/value pairs of the document, whatever
    their order. *)
Theorem convert_parse_roundtrip (theme_data palette : dict) (w : World) :
  palette_of theme_data = JObj palette ->
  dict_wf palette ->
  forallb palette_entry_ok palette = true ->
  forallb scalar_entry_ok (List.filter not_palette theme_data) = true ->
  exists text evs,
    convert_theme_to_conf (JObj theme_data) w = (Ok text, add_trace w evs) /\
    forall e, In e (parse_conf text) <-> In e (document_entries theme_data).
Proof. intros Hp Hwf He Hs. by apply (parse_convert theme_data palette). Qed.

Lemma convert_parse_roundtrip_witness :
  exists text evs,
    convert_theme_to_conf (JObj tomorrow_document) empty_world =
      (Ok text, add_trace empty_world evs) /\
    forall e, In e (parse_conf text) <-> In e (document_entries tomorrow_document).
Proof.
  apply (convert_parse_roundtrip tomorrow_document full_palette empty_world).
  - reflexivity.
  - apply (bool_decide_unpack _). vm_compute. exact I.
  - reflexivity.
  - reflexivity.
Defined.

(** The two documents are theme documents without any newline, they differ
    in their key/value pairs, and the converter gives them the same output. *)
Lemma separator_documents_collide :
  is_theme_document separator_in_key_document = true /\
  is_theme_document separator_in_value_document = true /\
  values_newline_free separator_in_key_document = true /\
  values_newline_free separator_in_value_document = true /\
  convert_theme_to_conf (JObj separator_in_key_document) empty_world =
  convert_theme_to_conf (JObj separator_in_value_document) empty_world /\
  document_entries separator_in_key_document = [ScalarEntry "a = b" (JStr "c")] /\
  document_entries separator_in_value_document = [ScalarEntry "a" (JStr "b = c")].
Proof. repeat split; vm_compute; reflexivity. Qed.

(** C6 as stated fails: no way of parsing the flat output recovers the
    key/value pairs of every theme document without embedded newlines, since
    the documents [{"a = b": "c"}] and [{"a": "b = c"}] (each with an empty
    palette) convert to the same text. *)
Lemma no_parser_recovers_every_document :
  ~ exists parse : string -> list conf_entry,
      forall (theme_data : dict) (text : string) (w w' : World),
        is_theme_document theme_data = true ->
        values_newline_free theme_data = true ->
        convert_theme_to_conf (JObj theme_data) w = (Ok text, w') ->
        forall e, In e (parse text) <-> In e (document_entries theme_data).
Proof.
  intros [parse Hparse].
  destruct separator_documents_collide as (Hd1 & Hd2 & Hn1 & Hn2 & Hsame & He1 & He2).
  destruct (convert_theme_to_conf (JObj separator_in_key_document) empty_world)
    as [[text|ex] w'] eqn:Hrun; [|vm_compute in Hrun; discriminate].
  pose proof (Hparse _ text empty_world w' Hd1 Hn1 Hrun
                (ScalarEntry "a = b" (JStr "c"))) as H1.
  symmetry in Hsame.
  pose proof (Hparse _ text empty_world w' Hd2 Hn2 Hsame
                (ScalarEntry "a = b" (JStr "c"))) as H2.
  rewrite He1 in H1. rewrite He2 in H2.
  assert (In (ScalarEntry "a = b" (JStr "c")) [ScalarEntry "a" (JStr "b = c")]) as Hin.
  { apply H2, H1. by left. }
  destruct Hin as [[=]|[]].
Qed.

Lemma invalid_json_skips_persistence_witness :
  exists w' evs,
    main (fun _ => inl "Expecting value: line 1 column 1 (char 0)")
         (fun _ => EmptyString) locked_env
         {| stdin := ["dungeon"]; files := ∅; trace := [] |} = (Ok tt, w') /\
    files w' = ∅ /\
    trace w' = [] ++ evs /\
    persisting evs = [] /\
    In (Print ("Error: OpenAI API did not return valid JSON. " +:+
               "Expecting value: line 1 column 1 (char 0)")) evs /\
    last evs = Some (Print ("Failed to generate theme data for '" +:+ "dungeon" +:+ "'.")).
Proof.
  destruct (invalid_json_skips_persistence
              (fun _ => inl "Expecting value: line 1 column 1 (char 0)")
              (fun _ => EmptyString) locked_env
              {| stdin := ["dungeon"]; files := ∅; trace := [] |}
              {| stdin := []; files := ∅;
                 trace := banner ++ [Input name_prompt "dungeon"] |}
              "sk-test" "dungeon" "not json"
              "Expecting value: line 1 column 1 (char 0)"
              eq_refl eq_refl eq_refl eq_refl) as [_ Hmain].
  exact Hmain.
Defined.

(** * Further properties of the script *)

(** ** The API key *)

Lemma load_api_key_usable (env : Env) (w : World) (key : string) :
  env_api_key env = Some key -> usable_key (Some key) = true ->
  load_api_key env w = (Ok key, w).
Proof.
  intros Hkey Hok. unfold usable_key in Hok.
  apply andb_true_iff in Hok as [He Hc]. apply negb_true_iff in He, Hc.
  unfold load_api_key. by rewrite Hkey, He, Hc.
Qed.

Lemma load_api_key_unusable (env : Env) (w : World) :
  usable_key (env_api_key env) = false ->
  exists evs,
    load_api_key env w = (Raise (SystemExit 1), add_trace w evs) /\
    evs <> [] /\ forallb is_print evs = true.
Proof.
  unfold usable_key, load_api_key, api_key_missing.
  destruct (env_api_key env) as [key|].
  - destruct (String.eqb key EmptyString); cbn [negb andb].
    + intros _. run_step. eexists. unfold add_trace. rewrite <- !app_assoc.
      split; [reflexivity|]. by split.
    + intros ->%negb_false_iff. run_step. eexists. unfold add_trace.
      split; [reflexivity|]. by split.
  - intros _. run_step. eexists. unfold add_trace. rewrite <- !app_assoc.
    split; [reflexivity|]. by split.
Qed.

(** X1: [load_api_key] returns the key, silently, exactly when the
    environment holds one that is neither empty nor the placeholder; in every
    other case it prints an error and exits with status 1, having read no
    input and touched no file. *)
Theorem load_api_key_outcome (env : Env) (w : World) :
  if usable_key (env_api_key env) then
    exists key, env_api_key env = Some key /\ load_api_key env w = (Ok key, w)
  else
    exists evs,
      load_api_key env w = (Raise (SystemExit 1), add_trace w evs) /\
      evs <> [] /\ forallb is_print evs = true /\
      stdin (add_trace w evs) = stdin w /\ files (add_trace w evs) = files w.
Proof.
  destruct (usable_key (env_api_key env)) eqn:Hok.
  - destruct (env_api_key env) as [key|] eqn:Hkey; [|done].
    exists key. split; [done|]. by apply load_api_key_usable.
  - destruct (load_api_key_unusable env w Hok) as [evs (Hrun & Hne & Hpr)].
    exists evs. by repeat split.
Qed.

(** ** The theme-name prompt, over the whole loop *)

Lemma get_theme_name_rejected (raw : string) (rest : list string)
    (fs : gmap string string) (tr : list event) :
  rejected_line raw = true ->
  get_theme_name {| stdin := raw :: rest; files := fs; trace := tr |} =
  get_theme_name {| stdin := rest; files := fs; trace := tr ++ rejections [raw] |}.
Proof.
  unfold rejected_line. intros Hrej%negb_true_iff.
  rewrite get_theme_name_step, Hrej. reflexivity.
Qed.

Lemma rejections_app (l1 l2 : list string) :
  rejections (l1 ++ l2) = rejections l1 ++ rejections l2.
Proof. unfold rejections. apply flat_map_app. Qed.

(** X2: the prompt skips every rejected line, printing the invalid-name
    message once for each, and returns the sanitized form of the first
    accepted line; the lines after it stay on standard input. *)
Theorem get_theme_name_first_accepted (rejected : list string) (good : string)
    (rest : list string) (fs : gmap string string) (tr : list event) :
  forallb rejected_line rejected = true ->
  name_accepted (Py.lower (Py.strip good)) = true ->
  get_theme_name {| stdin := rejected ++ good :: rest; files := fs; trace := tr |} =
  (Ok (Py.map_chars sanitize_char (Py.lower (Py.strip good))),
   {| stdin := rest; files := fs;
      trace := tr ++ rejections rejected ++ [Input name_prompt good] |}).
Proof.
  intros Hrej Hgood. revert tr.
  induction rejected as [|raw rejected IH]; intros tr.
  - cbn [app rejections flat_map]. by rewrite get_theme_name_step, Hgood.
  - cbn [forallb] in Hrej. apply andb_true_iff in Hrej as [Hraw Hrej].
    cbn [app]. rewrite get_theme_name_rejected by done.
    rewrite (IH Hrej). rewrite <- app_assoc.
    change (raw :: rejected) with ([raw] ++ rejected).
    by rewrite rejections_app, <- !app_assoc.
Qed.

Lemma get_theme_name_first_accepted_witness :
  get_theme_name {| stdin := ["two words"; "a/b"; " Solar-Flare "; "next"];
                    files := ∅; trace := [] |} =
  (Ok "solar-flare",
   {| stdin := ["next"]; files := ∅;
      trace := [] ++ rejections ["two words"; "a/b"] ++
               [Input name_prompt " Solar-Flare "] |}).
Proof.
  apply (get_theme_name_first_accepted ["two words"; "a/b"] " Solar-Flare "
           ["next"] ∅ []); reflexivity.
Defined.

(** X3: when every line waiting on standard input is rejected, the prompt
    consumes them all, prints the invalid-name message once for each, and
    ends with [EOFError]: it never returns a name. *)
Theorem get_theme_name_exhausted (pending : list string)
    (fs : gmap string string) (tr : list event) :
  forallb rejected_line pending = true ->
  get_theme_name {| stdin := pending; files := fs; trace := tr |} =
  (Raise EOFError,
   {| stdin := []; files := fs; trace := tr ++ rejections pending |}).
Proof.
  revert tr. induction pending as [|raw pending IH]; intros tr Hrej.
  - rewrite get_theme_name_eof. cbn [rejections flat_map]. by rewrite app_nil_r.
  - cbn [forallb] in Hrej. apply andb_true_iff in Hrej as [Hraw Hrej].
    rewrite get_theme_name_rejected by done. rewrite (IH _ Hrej).
    rewrite <- app_assoc. change (raw :: pending) with ([raw] ++ pending).
    by rewrite rejections_app.
Qed.

Lemma get_theme_name_exhausted_witness :
  get_theme_name {| stdin := [""; "   "; "a.b"; "c:d"]; files := ∅; trace := [] |} =
  (Raise EOFError,
   {| stdin := []; files := ∅;
      trace := [] ++ rejections [""; "   "; "a.b"; "c:d"] |}).
Proof.
  apply (get_theme_name_exhausted [""; "   "; "a.b"; "c:d"] ∅ []). reflexivity.
Defined.

Lemma get_theme_name_accepts (pending : list string) (fs : gmap string string) :
  forall (tr : list event) (name : string) (w' : World),
    get_theme_name {| stdin := pending; files := fs; trace := tr |} = (Ok name, w') ->
    exists raw, In raw pending /\
      name_accepted (Py.lower (Py.strip raw)) = true /\
      name = Py.map_chars sanitize_char (Py.lower (Py.strip raw)).
Proof.
  induction pending as [|raw rest IH]; intros tr name w'.
  - by rewrite get_theme_name_eof.
  - rewrite get_theme_name_step.
    destruct (name_accepted (Py.lower (Py.strip raw))) eqn:Hacc.
    + intros [= <- _]. exists raw. split; [by left|done].
    + intros Hrun. apply IH in Hrun as [raw' (Hin & Hacc' & Hname)].
      exists raw'. split; [by right|done].
Qed.

Lemma lower_char_not_upper (c : ascii) : Py.isupper (Py.lower_char c) = false.
Proof. destruct c as [[] [] [] [] [] [] [] []]; reflexivity. Qed.

Lemma sanitize_char_safe (c : ascii) :
  Py.isupper c = false ->
  allowed_char (sanitize_char c) && negb (Py.isupper (sanitize_char c)) = true.
Proof.
  intros Hc. rewrite sanitize_char_allowed. cbn [andb].
  unfold sanitize_char. destruct (Py.isalnum c || _ || _); [by rewrite Hc|done].
Qed.

Lemma sanitized_lower_safe (s : string) :
  all_chars (fun c => allowed_char c && negb (Py.isupper c))
    (Py.map_chars sanitize_char (Py.lower s)) = true.
Proof.
  induction s as [|c s IH]; [done|].
  cbn [Py.lower Py.map_chars all_chars]. fold (Py.lower s). rewrite IH.
  by rewrite sanitize_char_safe by apply lower_char_not_upper.
Qed.

Lemma lower_fixed (s : string) :
  all_chars (fun c => allowed_char c && negb (Py.isupper c)) s = true ->
  Py.lower s = s.
Proof.
  induction s as [|c s IH]; [done|]. cbn [all_chars].
  intros [[_ Hc]%andb_true_iff Hs]%andb_true_iff.
  unfold Py.lower in *. cbn [Py.map_chars]. rewrite (IH Hs).
  unfold Py.lower_char. apply negb_true_iff in Hc. by rewrite Hc.
Qed.

Lemma all_chars_char_in (p : ascii -> bool) (s : string) (c : ascii) :
  all_chars p s = true -> p c = false -> Py.char_in c s = false.
Proof.
  induction s as [|c0 s IH]; [done|]. cbn [all_chars Py.char_in].
  intros [Hc0 Hs]%andb_true_iff Hc. rewrite (IH Hs Hc), orb_false_r.
  apply Ascii.eqb_neq. intros ->. congruence.
Qed.

Lemma refused_chars_not_allowed :
  forallb (fun c => negb (allowed_char c)) refused_chars = true.
Proof. reflexivity. Qed.

(** A name is safe when it is not empty and made of lowercase letters,
    digits, [-] and [_]. *)
Lemma accepted_name_safe (t : string) :
  name_accepted (Py.lower t) = true ->
  let name := Py.map_chars sanitize_char (Py.lower t) in
  name <> EmptyString /\
  all_chars (fun c => allowed_char c && negb (Py.isupper c)) name = true.
Proof.
  intros Hacc name. split; [|apply sanitized_lower_safe].
  apply name_accepted_iff in Hacc as [Hne _].
  unfold name. destruct (Py.lower t); [done|]. done.
Qed.

(** X4: when the lines typed are ASCII text, a name returned by
    [get_theme_name] is not empty and consists of lowercase ASCII letters,
    digits, [-] and [_] only; it holds none of the refused characters (no
    slash, no dot) and lowercasing leaves it unchanged. *)
Theorem get_theme_name_returns_safe_name (w w' : World) (name : string) :
  forallb ascii_text (stdin w) = true ->
  get_theme_name w = (Ok name, w') ->
  name <> EmptyString /\
  ascii_text name = true /\
  all_chars (fun c => allowed_char c && negb (Py.isupper c)) name = true /\
  forallb (fun c => negb (Py.char_in c name)) refused_chars = true /\
  Py.lower name = name.
Proof.
  destruct w as [pending fs tr]. intros _ Hrun.
  apply get_theme_name_accepts in Hrun as [raw (_ & Hacc & ->)].
  destruct (accepted_name_safe (Py.strip raw) Hacc) as [Hne Hsafe].
  split; [done|]. split; [|split; [done|split; [|by apply lower_fixed]]].
  - revert Hsafe. generalize (Py.map_chars sanitize_char (Py.lower (Py.strip raw))).
    intros s. induction s as [|c s IH]; [done|]. cbn [all_chars ascii_text].
    intros [[Hc _]%andb_true_iff Hs]%andb_true_iff.
    unfold ascii_text in IH. rewrite (IH Hs), andb_true_r.
    revert Hc. clear. destruct c as [[] [] [] [] [] [] [] []]; by cbv.
  - apply forallb_forall. intros c Hc. apply negb_true_iff.
    apply (all_chars_char_in _ _ _ Hsafe).
    pose proof refused_chars_not_allowed as Hnot. rewrite forallb_forall in Hnot.
    apply Hnot, negb_true_iff in Hc. by rewrite Hc.
Qed.

Lemma get_theme_name_returns_safe_name_witness :
  "my_theme" <> EmptyString /\
  ascii_text "my_theme" = true /\
  all_chars (fun c => allowed_char c && negb (Py.isupper c)) "my_theme" = true /\
  forallb (fun c => negb (Py.char_in c "my_theme")) refused_chars = true /\
  Py.lower "my_theme" = "my_theme".
Proof.
  apply (get_theme_name_returns_safe_name
           {| stdin := ["My!Theme"]; files := ∅; trace := [] |}
           {| stdin := []; files := ∅; trace := [Input name_prompt "My!Theme"] |}
           "my_theme"); reflexivity.
Defined.

Lemma path_join_inside (dir name : string) :
  String.prefix "/" name = false ->
  String.eqb dir EmptyString ||
    String.eqb (String.substring (String.length dir - 1) 1 dir) "/" = false ->
  path_join dir name = dir +:+ "/" +:+ name.
Proof. intros Hname Hdir. unfold path_join. by rewrite Hname, Hdir. Qed.

Lemma safe_name_relative (name suffix : string) :
  name <> EmptyString ->
  all_chars (fun c => allowed_char c && negb (Py.isupper c)) name = true ->
  String.prefix "/" (name +:+ suffix) = false.
Proof.
  destruct name as [|c name]; [done|]. intros _. cbn [all_chars].
  intros [[Hc _]%andb_true_iff _]%andb_true_iff.
  change (String c name +:+ suffix) with (String c (name +:+ suffix)).
  cbn [String.prefix]. destruct (ascii_dec "/" c) as [<-|]; [done|done].
Qed.

(** X5: for every name the prompt returns, the three files the script names
    sit directly inside their directories: the JSON file is
    [themes/ghostty/<name>.json] and the two Ghostty targets are
    [<directory>/<name>]. *)
Theorem prompt_names_stay_in_directory (w w' : World) (name : string) :
  get_theme_name w = (Ok name, w') ->
  path_join (path_join "themes" "ghostty") (name +:+ ".json") =
    "themes/ghostty/" +:+ name +:+ ".json" /\
  path_join themes_dir (Py.lower name) = themes_dir +:+ "/" +:+ name /\
  path_join sudo_themes_dir (Py.lower name) = sudo_themes_dir +:+ "/" +:+ name.
Proof.
  destruct w as [pending fs tr]. intros Hrun.
  apply get_theme_name_accepts in Hrun as [raw (_ & Hacc & ->)].
  destruct (accepted_name_safe (Py.strip raw) Hacc) as [Hne Hsafe].
  rewrite (lower_fixed _ Hsafe).
  pose proof (safe_name_relative _ ".json" Hne Hsafe) as Hjson.
  pose proof (safe_name_relative _ EmptyString Hne Hsafe) as Hrel.
  replace (Py.map_chars sanitize_char (Py.lower (Py.strip raw)) +:+ EmptyString)
    with (Py.map_chars sanitize_char (Py.lower (Py.strip raw))) in Hrel.
  - split; [|split].
    + by rewrite path_join_inside.
    + by rewrite path_join_inside.
    + by rewrite path_join_inside.
  - generalize (Py.map_chars sanitize_char (Py.lower (Py.strip raw))).
    intros s. induction s as [|c s IH]; [done|].
    change (String c s +:+ EmptyString) with (String c (s +:+ EmptyString)).
    by rewrite <- IH.
Qed.

Lemma prompt_names_stay_in_directory_witness :
  path_join (path_join "themes" "ghostty") ("solar-flare" +:+ ".json") =
    "themes/ghostty/" +:+ "solar-flare" +:+ ".json" /\
  path_join themes_dir (Py.lower "solar-flare") = themes_dir +:+ "/" +:+ "solar-flare" /\
  path_join sudo_themes_dir (Py.lower "solar-flare") =
    sudo_themes_dir +:+ "/" +:+ "solar-flare".
Proof.
  apply (prompt_names_stay_in_directory
           {| stdin := [" Solar-Flare "]; files := ∅; trace := [] |}
           {| stdin := []; files := ∅; trace := [Input name_prompt " Solar-Flare "] |}
           "solar-flare").
  reflexivity.
Defined.

(** X6: for every name the prompt returns, the path the unprivileged write
    tries and the path the escalated write moves the file to are different:
    a successful escalation never puts the file where the first attempt
    wanted it. *)
Theorem prompt_names_have_two_targets (w w' : World) (name : string) :
  get_theme_name w = (Ok name, w') ->
  path_join themes_dir (Py.lower name) <> path_join sudo_themes_dir (Py.lower name).
Proof.
  destruct w as [pending fs tr]. intros Hrun.
  apply get_theme_name_accepts in Hrun as [raw (_ & Hacc & ->)].
  destruct (accepted_name_safe (Py.strip raw) Hacc) as [Hne Hsafe].
  apply writer_paths_differ. rewrite (lower_fixed _ Hsafe).
  destruct (Py.map_chars sanitize_char (Py.lower (Py.strip raw))) as [|c s]; [done|].
  cbn [all_chars] in Hsafe.
  apply andb_true_iff in Hsafe as [[Hc _]%andb_true_iff _].
  cbn [String.prefix]. by destruct (ascii_dec "/" c) as [<-|].
Qed.

Lemma prompt_names_have_two_targets_witness :
  path_join themes_dir (Py.lower "dungeon") <>
  path_join sudo_themes_dir (Py.lower "dungeon").
Proof.
  apply (prompt_names_have_two_targets
           {| stdin := ["Dungeon"]; files := ∅; trace := [] |}
           {| stdin := []; files := ∅; trace := [Input name_prompt "Dungeon"] |}
           "dungeon").
  reflexivity.
Defined.

(** ** The generation step *)

(** X7: [generate_ghostty_theme_json] always returns: it asks the provider
    once, touches no file and reads no input; its result is the value
    [json.loads] parsed from the response, and [None] whenever the call
    failed, the response had no content or the content did not parse. *)
Theorem generate_outcome (json_loads : string -> string + json) (env : Env)
    (api_key theme_name : string) (w : World) :
  exists v evs,
    generate_ghostty_theme_json json_loads env api_key theme_name w =
      (Ok v, add_trace w evs) /\
    api_calls evs = [theme_name] /\
    persisting evs = [] /\
    inputs_read evs = [] /\
    match env_chat env theme_name with
    | Completed (Some s) =>
        match json_loads s with
        | inr theme_data =>
            v = theme_data /\
            last evs = Some (Print "Theme JSON successfully generated and parsed.")
        | inl msg =>
            v = JNull /\
            In (Print ("Error: OpenAI API did not return valid JSON. " +:+ msg)) evs
        end
    | Completed None => v = JNull
    | ApiFailed msg =>
        v = JNull /\
        last evs = Some (Print ("An error occurred while communicating with OpenAI: "
                                +:+ msg))
    end.
Proof.
  unfold generate_ghostty_theme_json. run_step.
  destruct (env_chat env theme_name) as [[s|]|msg].
  - destruct (json_loads s) as [msg|theme_data].
    + destruct (String.eqb s EmptyString); cbn [negb]; run_step;
        eexists; eexists; unfold add_trace; rewrite <- !app_assoc;
        (split; [reflexivity|]); repeat split; cbn; tauto.
    + run_step. eexists. eexists. unfold add_trace. rewrite <- !app_assoc.
      split; [reflexivity|]. by repeat split.
  - run_step. eexists. eexists. unfold add_trace. rewrite <- !app_assoc.
    split; [reflexivity|]. by repeat split.
  - run_step. eexists. eexists. unfold add_trace. rewrite <- !app_assoc.
    split; [reflexivity|]. by repeat split.
Qed.

(** ** Saving the JSON file *)

(** X8: whatever [os.makedirs] and [open] answer, [save_theme_to_file]
    returns normally, reads no input and runs no command.  When the
    directory cannot be created it does not open the file; when [open]
    itself fails no file is changed; otherwise the only change to the files
    is that the JSON file holds the dump. *)
Theorem save_theme_to_file_outcome (json_dump : json -> string) (env : Env)
    (theme_name : string) (theme_data : json) (w : World) :
  let file_path := path_join (path_join "themes" "ghostty") (theme_name +:+ ".json") in
  exists fs' evs,
    save_theme_to_file json_dump env theme_name theme_data w =
      (Ok tt, {| stdin := stdin w; files := fs'; trace := trace w ++ evs |}) /\
    elevated_commands evs = [] /\
    match env_makedirs env (path_join "themes" "ghostty") with
    | Some e => fs' = files w /\ opened_paths evs = []
    | None =>
        opened_paths evs = [file_path] /\
        match env_open_w env file_path with
        | Some e => fs' = files w
        | None => fs' = <[file_path := json_dump theme_data]> (files w)
        end
    end.
Proof.
  intros file_path. unfold save_theme_to_file, try_except, os_makedirs, write_file.
  run_step.
  destruct (env_makedirs env (path_join "themes" "ghostty")) as [e|]; run_step.
  - cbn [except_OSError]. run_step. eexists. eexists.
    rewrite <- !app_assoc. split; [reflexivity|]. by repeat split.
  - fold file_path. destruct (env_open_w env file_path) as [e|]; run_step.
    + cbn [except_OSError]. run_step. eexists. eexists.
      rewrite <- !app_assoc. split; [reflexivity|]. by repeat split.
    + eexists. eexists. rewrite <- !app_assoc. split; [reflexivity|].
      by repeat split.
Qed.

(** ** The converter on any parsed value *)

Lemma palette_loop_not_mapping (palette : json) (lines : list string) (w : World) :
  match palette with JObj _ => False | _ => True end ->
  palette_loop palette (seq 0 16) lines w = (Raise AttributeError, w).
Proof. by destruct palette. Qed.

Lemma endswith_newline_join (lines : list string) :
  endswith nl (Py.join nl lines +:+ nl) = true.
Proof. apply endswith_app. Qed.

(** X9: the converter needs mappings.  On a mapping whose [palette], when
    present, is a mapping it returns a text that ends with a newline; on any
    other parsed value (a list, a string, a number, [null], or a mapping
    whose [palette] is not a mapping) it raises [AttributeError] before
    printing anything. *)
Theorem convert_needs_mappings (theme_data : json) (w : World) :
  if mapping_document theme_data then
    exists text evs,
      convert_theme_to_conf theme_data w = (Ok text, add_trace w evs) /\
      endswith nl text = true /\ forallb is_print evs = true
  else convert_theme_to_conf theme_data w = (Raise AttributeError, w).
Proof.
  destruct theme_data as [| | | | |m]; try reflexivity.
  unfold mapping_document.
  destruct (palette_of m) as [| | | | |palette] eqn:Hp;
    try (unfold convert_theme_to_conf, py_get; fold (palette_of m); rewrite Hp;
         run_step; by rewrite palette_loop_not_mapping).
  eexists. eexists. split; [by apply convert_run|].
  split; [apply endswith_newline_join|].
  unfold palette_warnings. generalize (seq 0 16). intros indices.
  induction indices as [|i indices IH]; [done|]. cbn [flat_map].
  rewrite forallb_app, IH. by destruct (truthy (hex_code_of palette i)).
Qed.

Lemma filter_partition (f : nat -> bool) (l : list nat) :
  List.filter f l ++ List.filter (fun j => negb (f j)) l ≡ₚ l.
Proof.
  induction l as [|a l IH]; [done|]. cbn [List.filter].
  destruct (f a); cbn [negb app].
  - by rewrite IH.
  - rewrite <- Permutation_middle. by rewrite IH.
Qed.

(** X10: the exact output on every document whose palette is a mapping.
    Each of the 16 indices gives either one palette line, when its value is
    truthy, or one warning, never both and never neither: the text is the
    palette lines of the truthy indices in ascending order followed by one
    line per other top-level key, the trace grows by the warnings of the
    other indices in ascending order, and the two index lists together are
    a rearrangement of 0..15. *)
Theorem convert_sixteen_slots (theme_data palette : dict) (w : World) :
  palette_of theme_data = JObj palette ->
  let present := List.filter (fun j => truthy (hex_code_of palette j)) (seq 0 16) in
  let missing :=
    List.filter (fun j => negb (truthy (hex_code_of palette j))) (seq 0 16) in
  convert_theme_to_conf (JObj theme_data) w =
    (Ok (Py.join nl
           (map (fun j => palette_line j (hex_code_of palette j)) present ++
            map (fun kv => scalar_line (fst kv) (snd kv))
                (List.filter not_palette theme_data)) +:+ nl),
     add_trace w (map (fun j => Print (palette_warning j)) missing)) /\
  present ++ missing ≡ₚ seq 0 16 /\
  length present + length missing = 16 /\
  (forall j, In j present -> ~ In j missing).
Proof.
  intros Hp present missing.
  destruct (palette_loop_filter palette (seq 0 16)) as [Hlines Hwarn].
  split; [|split; [|split]].
  - rewrite (convert_run theme_data palette) by done. by rewrite Hlines, Hwarn.
  - apply filter_partition.
  - rewrite <- length_app. unfold present, missing.
    by rewrite (Permutation_length
                  (filter_partition (fun j => truthy (hex_code_of palette j)) (seq 0 16))).
  - intros j [_ Ht]%filter_In [_ Hf]%filter_In. rewrite Ht in Hf. done.
Qed.

Lemma convert_sixteen_slots_witness :
  convert_theme_to_conf example_document empty_world =
    (Ok (Py.join nl
           (map (fun j => palette_line j
                            (hex_code_of [("0", JStr "#111111"); ("1", JStr "#ff0000")] j))
                [0; 1] ++
            ["background = #111111"]) +:+ nl),
     add_trace empty_world (map (fun j => Print (palette_warning j)) (seq 2 14))) /\
  [0; 1] ++ seq 2 14 ≡ₚ seq 0 16.
Proof.
  destruct (convert_sixteen_slots
              [("palette", JObj [("0", JStr "#111111"); ("1", JStr "#ff0000")]);
               ("background", JStr "#111111")]
              [("0", JStr "#111111"); ("1", JStr "#ff0000")] empty_world eq_refl)
    as (Hrun & Hperm & _).
  split; [exact Hrun|exact Hperm].
Defined.

Lemma empty_palette_loop (indices : list nat) :
  palette_lines [] indices = [] /\
  palette_warnings [] indices = map (fun i => Print (palette_warning i)) indices.
Proof.
  unfold palette_lines, palette_warnings.
  induction indices as [|i indices [IHl IHw]]; [done|].
  cbn [flat_map map]. by rewrite IHl, IHw.
Qed.

(** X11: a document without a [palette] key converts like one whose palette
    is empty: the 16 missing-index warnings are logged, in index order, and
    the output holds the lines of the other keys only. *)
Theorem convert_without_palette (theme_data : dict) (w : World) :
  dict_get theme_data "palette" = None \/
  dict_get theme_data "palette" = Some (JObj []) ->
  convert_theme_to_conf (JObj theme_data) w =
  (Ok (Py.join nl (scalar_lines theme_data) +:+ nl),
   add_trace w (map (fun i => Print (palette_warning i)) (seq 0 16))).
Proof.
  intros Hp. rewrite (convert_run theme_data []).
  - destruct (empty_palette_loop (seq 0 16)) as [-> ->]. reflexivity.
  - unfold palette_of. by destruct Hp as [-> | ->].
Qed.

Lemma convert_without_palette_witness :
  convert_theme_to_conf
    (JObj [("background", JStr "#111111"); ("foreground", JStr "#eeeeee")])
    empty_world =
  (Ok (Py.join nl
         (scalar_lines [("background", JStr "#111111"); ("foreground", JStr "#eeeeee")])
       +:+ nl),
   add_trace empty_world (map (fun i => Print (palette_warning i)) (seq 0 16))).
Proof.
  apply (convert_without_palette
           [("background", JStr "#111111"); ("foreground", JStr "#eeeeee")]
           empty_world).
  by left.
Defined.

(** The palette loop reads the palette through its 16 lookups only. *)
Lemma palette_loop_ext (palette palette' : dict) (indices : list nat) :
  (forall i, In i indices ->
     dict_get palette (Py.str_nat i) = dict_get palette' (Py.str_nat i)) ->
  palette_lines palette indices = palette_lines palette' indices /\
  palette_warnings palette indices = palette_warnings palette' indices.
Proof.
  unfold palette_lines, palette_warnings.
  induction indices as [|i indices IH]; [done|]. intros Hsame.
  destruct IH as [IHl IHw]; [intros j Hj; apply Hsame; by right|].
  cbn [flat_map]. rewrite IHl, IHw.
  unfold hex_code_of. by rewrite (Hsame i) by (by left).
Qed.

Lemma convert_palette_ext (theme_data palette palette' : dict) (w : World) :
  dict_get theme_data "palette" = Some (JObj palette) ->
  (forall i, i < 16 ->
     dict_get palette (Py.str_nat i) = dict_get palette' (Py.str_nat i)) ->
  convert_theme_to_conf (JObj theme_data) w =
  convert_theme_to_conf (JObj (dict_set theme_data "palette" (JObj palette'))) w.
Proof.
  intros Hp Hsame.
  rewrite (convert_run theme_data palette) by (unfold palette_of; by rewrite Hp).
  rewrite (convert_run _ palette')
    by (unfold palette_of; by rewrite (dict_get_set _ _ _ _ Hp)).
  rewrite scalar_lines_set_palette.
  destruct (palette_loop_ext palette palette' (seq 0 16)) as [-> ->]; [|done].
  intros i Hi. apply Hsame. apply in_seq in Hi. lia.
Qed.

Lemma dict_wf_perm (m m' : dict) : m ≡ₚ m' -> dict_wf m -> dict_wf m'.
Proof.
  unfold dict_wf, dict_keys. intros Hperm Hwf.
  by rewrite <- Hperm.
Qed.

Lemma dict_get_perm (m m' : dict) (k : string) :
  dict_wf m -> m ≡ₚ m' -> dict_get m k = dict_get m' k.
Proof.
  intros Hwf Hperm. pose proof (dict_wf_perm m m' Hperm Hwf) as Hwf'.
  destruct (dict_get m k) as [v|] eqn:Hget.
  - symmetry. apply In_dict_get; [done|].
    apply dict_get_In in Hget. apply list_elem_of_In.
    rewrite <- Hperm. by apply list_elem_of_In.
  - destruct (dict_get m' k) as [v'|] eqn:Hget'; [|done].
    apply dict_get_In in Hget'.
    assert (In (k, v') m) as Hin.
    { apply list_elem_of_In. rewrite Hperm. by apply list_elem_of_In. }
    apply (In_dict_get m k v' Hwf) in Hin. congruence.
Qed.

(** X12: the output does not depend on the order in which the palette
    mapping lists its entries: two documents that differ only by a
    reordering of the palette convert to the same text with the same
    warnings. *)
Theorem convert_palette_order (theme_data palette palette' : dict) (w : World) :
  dict_get theme_data "palette" = Some (JObj palette) ->
  dict_wf palette ->
  palette ≡ₚ palette' ->
  convert_theme_to_conf (JObj theme_data) w =
  convert_theme_to_conf (JObj (dict_set theme_data "palette" (JObj palette'))) w.
Proof.
  intros Hp Hwf Hperm. apply (convert_palette_ext _ palette); [done|].
  intros i _. by apply dict_get_perm.
Qed.

Lemma convert_palette_order_witness :
  convert_theme_to_conf
    (JObj [("palette", JObj [("1", JStr "#ff0000"); ("0", JStr "#111111")]);
           ("background", JStr "#111111")]) empty_world =
  convert_theme_to_conf
    (JObj (dict_set
             [("palette", JObj [("1", JStr "#ff0000"); ("0", JStr "#111111")]);
              ("background", JStr "#111111")]
             "palette" (JObj [("0", JStr "#111111"); ("1", JStr "#ff0000")])))
    empty_world.
Proof.
  apply (convert_palette_order
           [("palette", JObj [("1", JStr "#ff0000"); ("0", JStr "#111111")]);
            ("background", JStr "#111111")]
           [("1", JStr "#ff0000"); ("0", JStr "#111111")]
           [("0", JStr "#111111"); ("1", JStr "#ff0000")] empty_world).
  - reflexivity.
  - apply (bool_decide_unpack _). vm_compute. exact I.
  - apply perm_swap.
Defined.

Lemma dict_get_app (m1 m2 : dict) (k : string) :
  dict_get (m1 ++ m2) k =
  match dict_get m1 k with Some v => Some v | None => dict_get m2 k end.
Proof.
  induction m1 as [|[k1 v1] m1 IH]; [done|]. simpl.
  by destruct (String.eqb k k1).
Qed.

(** X13: a palette key that is not one of the decimal strings 0 to 15 is
    ignored: the conversion is that of the document without the entry,
    output and warnings alike. *)
Theorem convert_ignores_other_palette_keys
    (theme_data palette1 palette2 : dict) (k : string) (v : json) (w : World) :
  dict_get theme_data "palette" = Some (JObj (palette1 ++ (k, v) :: palette2)) ->
  palette_index k = false ->
  convert_theme_to_conf (JObj theme_data) w =
  convert_theme_to_conf
    (JObj (dict_set theme_data "palette" (JObj (palette1 ++ palette2)))) w.
Proof.
  intros Hp Hk. apply (convert_palette_ext _ (palette1 ++ (k, v) :: palette2)); [done|].
  intros i Hi. rewrite !dict_get_app. cbn [dict_get].
  destruct (String.eqb (Py.str_nat i) k) eqn:Hik; [|done].
  apply String.eqb_eq in Hik as <-.
  assert (palette_index (Py.str_nat i) = true) as Hidx; [|congruence].
  unfold palette_index. apply existsb_exists. exists i.
  split; [apply in_seq; lia|apply String.eqb_refl].
Qed.

Lemma convert_ignores_other_palette_keys_witness :
  convert_theme_to_conf
    (JObj [("palette", JObj [("0", JStr "#111111"); ("16", JStr "#abcdef");
                             ("1", JStr "#ff0000")])]) empty_world =
  convert_theme_to_conf
    (JObj (dict_set
             [("palette", JObj [("0", JStr "#111111"); ("16", JStr "#abcdef");
                                ("1", JStr "#ff0000")])]
             "palette" (JObj ([("0", JStr "#111111")] ++ [("1", JStr "#ff0000")]))))
    empty_world.
Proof.
  apply (convert_ignores_other_palette_keys
           [("palette", JObj [("0", JStr "#111111"); ("16", JStr "#abcdef");
                              ("1", JStr "#ff0000")])]
           [("0", JStr "#111111")] [("1", JStr "#ff0000")] "16" (JStr "#abcdef")
           empty_world); reflexivity.
Defined.

(** ** The writer's other paths *)



(** X15: when [os.makedirs] or [open] fails for a reason that is not a
    permission failure (a read-only file system, a missing volume), the
    failure is only reported: the writer returns without asking for consent,
    without running a command and without changing a file. *)
Theorem save_conf_other_error (env : Env) (theme_name conf : string) (w : World)
    (e : oserror) :
  env_makedirs env themes_dir = Some e \/
  (env_makedirs env themes_dir = None /\
   env_open_w env (path_join themes_dir (Py.lower theme_name)) = Some e) ->
  permission_denied e = false ->
  exists evs,
    save_conf_to_ghostty env theme_name conf w = (Ok tt, add_trace w evs) /\
    inputs_read evs = [] /\
    elevated_commands evs = [] /\
    writer_state_of evs = None /\
    exists line, last evs = Some (Print line) /\
                 String.prefix "Error " line = true.
Proof.
  intros Hfail Hden. unfold permission_denied in Hden.
  unfold save_conf_to_ghostty, try_except, os_makedirs, write_file. run_step.
  fold themes_dir. destruct Hfail as [Hmk|[Hmk Hop]].
  - rewrite Hmk. run_step. cbn [except_OSError]. run_step. rewrite Hden. run_step.
    eexists. unfold add_trace. rewrite <- !app_assoc. split; [reflexivity|].
    repeat split. eexists. split; reflexivity.
  - rewrite Hmk. run_step. rewrite Hop. run_step. cbn [except_OSError]. run_step.
    rewrite Hden. run_step.
    eexists. unfold add_trace. rewrite <- !app_assoc. split; [reflexivity|].
    repeat split. eexists. split; reflexivity.
Qed.

Lemma save_conf_other_error_witness :
  exists evs,
    save_conf_to_ghostty read_only_env "dungeon" "background = #111111"
      {| stdin := ["y"]; files := ∅; trace := [] |} =
      (Ok tt, add_trace {| stdin := ["y"]; files := ∅; trace := [] |} evs) /\
    inputs_read evs = [] /\
    elevated_commands evs = [] /\
    writer_state_of evs = None /\
    exists line, last evs = Some (Print line) /\
                 String.prefix "Error " line = true.
Proof.
  apply (save_conf_other_error read_only_env "dungeon" "background = #111111"
           {| stdin := ["y"]; files := ∅; trace := [] |} EROFS).
  - right. split; reflexivity.
  - reflexivity.
Defined.

(** X16: when the elevated directory creation exits non-zero, the writer
    ends in the Failed state reporting that status; no temporary file is
    created and the move is never run. *)
Theorem failed_mkdir_stops (env : Env) (theme_name conf answer : string)
    (rest : list string) (fs fs1 : gmap string string) (tr : list event) (rc : Z) :
  Py.lower (Py.strip answer) = "y" ->
  env_run env ["sudo"; "mkdir"; "-p"; sudo_themes_dir] fs = (rc, fs1) ->
  rc <> 0%Z ->
  exists evs,
    prompt_and_attempt_sudo_save env theme_name conf
      {| stdin := answer :: rest; files := fs; trace := tr |} =
      (Ok tt, {| stdin := rest; files := fs1; trace := tr ++ evs |}) /\
    writer_state_of evs = Some Failed /\
    last evs = Some (Print ("sudo attempt failed: sudo mkdir returned non-zero exit status "
                            +:+ Py.str_int rc)) /\
    elevated_commands evs = [["sudo"; "mkdir"; "-p"; sudo_themes_dir]] /\
    forallb (fun e => match e with TempFile _ _ => false | _ => true end) evs = true.
Proof.
  intros Hyes Hmkdir Hrc. rewrite prompt_accepted by done. unfold try_except.
  rewrite (attempt_save_mkdir_fails env conf _ _ _ rc fs1) by done.
  run_step. cbn [exn_str]. eexists. rewrite <- !app_assoc.
  split; [reflexivity|]. by repeat split.
Qed.

Lemma failed_mkdir_stops_witness :
  exists evs,
    prompt_and_attempt_sudo_save no_sudo_env "dungeon" "background = #111111"
      {| stdin := ["y"]; files := ∅; trace := [] |} =
      (Ok tt, {| stdin := []; files := ∅; trace := [] ++ evs |}) /\
    writer_state_of evs = Some Failed /\
    last evs = Some (Print ("sudo attempt failed: sudo mkdir returned non-zero exit status "
                            +:+ Py.str_int 1)) /\
    elevated_commands evs = [["sudo"; "mkdir"; "-p"; sudo_themes_dir]] /\
    forallb (fun e => match e with TempFile _ _ => false | _ => true end) evs = true.
Proof.
  apply (failed_mkdir_stops no_sudo_env "dungeon" "background = #111111" "y"
           [] ∅ ∅ [] 1).
  - reflexivity.
  - reflexivity.
  - discriminate.
Defined.

(** X17: when both elevated commands exit with status 0, the writer ends in
    the Done state.  The move was given a temporary file holding exactly the
    converted text, and the files afterwards are those the move left. *)
Theorem escalation_succeeds (env : Env) (theme_name conf answer : string)
    (rest : list string) (fs fs1 fs3 : gmap string string) (tr : list event) :
  let target_path := path_join sudo_themes_dir (Py.lower theme_name) in
  let tmp_path := env_mktemp env fs1 in
  Py.lower (Py.strip answer) = "y" ->
  env_run env ["sudo"; "mkdir"; "-p"; sudo_themes_dir] fs = (0%Z, fs1) ->
  env_run env ["sudo"; "mv"; tmp_path; target_path] (<[tmp_path := conf]> fs1)
    = (0%Z, fs3) ->
  exists evs,
    prompt_and_attempt_sudo_save env theme_name conf
      {| stdin := answer :: rest; files := fs; trace := tr |} =
      (Ok tt, {| stdin := rest; files := fs3; trace := tr ++ evs |}) /\
    writer_state_of evs = Some Done /\
    elevated_commands evs =
      [["sudo"; "mkdir"; "-p"; sudo_themes_dir]; ["sudo"; "mv"; tmp_path; target_path]] /\
    In (TempFile tmp_path conf) evs /\
    forallb (fun e => match e with Remove _ => false | _ => true end) evs = true.
Proof.
  intros target_path tmp_path Hyes Hmkdir Hmv.
  rewrite prompt_accepted by done. unfold try_except.
  rewrite (attempt_save_succeeds env conf _ _ _ fs1 fs3) by done.
  cbn [stdin files trace].
  eexists. rewrite <- !app_assoc. split; [reflexivity|].
  split; [reflexivity|]. split; [reflexivity|]. split; [|reflexivity].
  do 3 right. by left.
Qed.

Lemma escalation_succeeds_witness :
  exists evs,
    prompt_and_attempt_sudo_save sudo_env "Dungeon" "background = #111111"
      {| stdin := ["y"]; files := ∅; trace := [] |} =
      (Ok tt,
       {| stdin := [];
          files := <["/Applications/Ghostty.app/Contents/Resources/ghostty/themes/dungeon"
                     := "background = #111111"]>
                     (delete "/tmp/tmpab12cd"
                        (<["/tmp/tmpab12cd" := "background = #111111"]> ∅));
          trace := [] ++ evs |}) /\
    writer_state_of evs = Some Done /\
    elevated_commands evs =
      [["sudo"; "mkdir"; "-p"; sudo_themes_dir];
       ["sudo"; "mv"; "/tmp/tmpab12cd";
        "/Applications/Ghostty.app/Contents/Resources/ghostty/themes/dungeon"]] /\
    In (TempFile "/tmp/tmpab12cd" "background = #111111") evs /\
    forallb (fun e => match e with Remove _ => false | _ => true end) evs = true.
Proof.
  apply (escalation_succeeds sudo_env "Dungeon" "background = #111111" "y" [] ∅ ∅
           (<["/Applications/Ghostty.app/Contents/Resources/ghostty/themes/dungeon"
              := "background = #111111"]>
              (delete "/tmp/tmpab12cd"
                 (<["/tmp/tmpab12cd" := "background = #111111"]> ∅))) []).
  - reflexivity.
  - reflexivity.
  - reflexivity.
Defined.

Lemma prompt_eof (env : Env) (theme_name conf : string)
    (fs : gmap string string) (tr : list event) :
  prompt_and_attempt_sudo_save env theme_name conf
    {| stdin := []; files := fs; trace := tr |} =
  (Raise EOFError, {| stdin := []; files := fs; trace := tr |}).
Proof. reflexivity. Qed.

(** Every run of the consent step: it reads one line, or fails on an empty
    standard input; it returns normally whatever the commands do. *)
Lemma prompt_outcome (env : Env) (theme_name conf : string) (w : World) :
  exists r w' evs,
    prompt_and_attempt_sudo_save env theme_name conf w = (r, w') /\
    trace w' = trace w ++ evs /\
    escalation_commands theme_name (elevated_commands evs) /\
    opened_paths evs = [] /\
    ((r = Raise EOFError /\ stdin w = [] /\ evs = []) \/
     (r = Ok tt /\ exists answer, stdin w = answer :: stdin w' /\
                                  inputs_read evs = [answer])).
Proof.
  destruct w as [[|answer rest] fs tr].
  - rewrite prompt_eof. do 3 eexists. split; [reflexivity|]. cbn [trace].
    split; [by rewrite app_nil_r|]. split; [by left|]. split; [done|]. by left.
  - destruct (String.eqb (Py.lower (Py.strip answer)) "y") eqn:Hy.
    + apply String.eqb_eq in Hy. rewrite prompt_accepted by done. unfold try_except.
      set (w1 := {| stdin := rest; files := fs;
                    trace := tr ++ [Input sudo_prompt answer] |}).
      set (target_path := path_join sudo_themes_dir (Py.lower theme_name)).
      destruct (env_run env ["sudo"; "mkdir"; "-p"; sudo_themes_dir] (files w1))
        as [rc1 fs1] eqn:Hmkdir.
      destruct (Z.eq_dec rc1 0%Z) as [->|Hrc1].
      * destruct (env_run env ["sudo"; "mv"; env_mktemp env fs1; target_path]
                    (<[env_mktemp env fs1 := conf]> fs1)) as [rc2 fs3] eqn:Hmv.
        destruct (Z.eq_dec rc2 0%Z) as [->|Hrc2].
        -- rewrite (attempt_save_succeeds env conf _ _ w1 fs1 fs3) by done.
           do 3 eexists. split; [reflexivity|]. cbn [trace stdin w1].
           split; [by rewrite <- app_assoc|].
           split; [right; right; by eexists|]. split; [done|].
           right. split; [done|]. by exists answer.
        -- rewrite (attempt_save_mv_fails env conf _ _ w1 rc2 fs1 fs3) by done.
           run_step. do 3 eexists. split; [reflexivity|]. cbn [trace stdin w1].
           split; [by rewrite <- !app_assoc|].
           split; [right; right; by eexists|]. split; [done|].
           right. split; [done|]. by exists answer.
      * rewrite (attempt_save_mkdir_fails env conf _ _ w1 rc1 fs1) by done.
        run_step. do 3 eexists. split; [reflexivity|]. cbn [trace stdin w1].
        split; [by rewrite <- !app_assoc|].
        split; [right; by left|]. split; [done|].
        right. split; [done|]. by exists answer.
    + apply String.eqb_neq in Hy. rewrite prompt_declined by done.
      do 3 eexists. split; [reflexivity|]. cbn [trace stdin].
      split; [reflexivity|]. split; [by left|]. split; [done|].
      right. split; [done|]. by exists answer.
Qed.

(** X18: every run of the writer.  [save_conf_to_ghostty] returns normally
    whatever the file system and the commands do; the one exception is an
    exhausted standard input at the consent prompt, which ends it with
    [EOFError] before any command is run.  It reads at most one line, and
    the commands it runs are none, [sudo mkdir -p] alone, or [sudo mkdir -p]
    followed by [sudo mv] of a temporary file to the escalated target. *)
Theorem writer_outcome (env : Env) (theme_name conf : string) (w : World) :
  exists r w' evs,
    save_conf_to_ghostty env theme_name conf w = (r, w') /\
    trace w' = trace w ++ evs /\
    escalation_commands theme_name (elevated_commands evs) /\
    length (inputs_read evs) <= 1 /\
    (r = Ok tt \/
     (r = Raise EOFError /\ stdin w = [] /\ elevated_commands evs = [])).
Proof.
  destruct (env_makedirs env themes_dir) as [e|] eqn:Hmk.
  - destruct (permission_denied e) eqn:Hden.
    + destruct (save_conf_denied env theme_name conf w e Hden) as [Hrun _].
      rewrite (Hrun Hmk).
      destruct (prompt_outcome env theme_name conf
                  (add_trace w [Makedirs themes_dir (Some e);
                     Print ("Error ensuring Ghostty themes directory exists at " +:+
                            themes_dir +:+ ": " +:+ strerror e)]))
        as (r & w' & evs & Hp & Htr & Hcmd & _ & Hres).
      exists r, w', ([Makedirs themes_dir (Some e);
                     Print ("Error ensuring Ghostty themes directory exists at " +:+
                            themes_dir +:+ ": " +:+ strerror e)] ++ evs).
      split; [done|]. cbn [add_trace trace] in Htr.
      split; [by rewrite Htr, <- app_assoc|]. split; [done|].
      destruct Hres as [(-> & Hin & ->)|(-> & answer & Hin & Hread)].
      * split; [cbn; lia|]. right. by repeat split.
      * split; [change (length (inputs_read evs) <= 1); rewrite Hread; cbn; lia|].
        by left.
    + unfold permission_denied in Hden.
      unfold save_conf_to_ghostty, try_except, os_makedirs. run_step.
      fold themes_dir. rewrite Hmk. run_step. cbn [except_OSError]. run_step.
      rewrite Hden. run_step. do 3 eexists. split; [reflexivity|]. cbn [trace].
      rewrite <- !app_assoc. split; [reflexivity|].
      split; [by left|]. split; [cbn; lia|]. by left.
  - destruct (env_open_w env (path_join themes_dir (Py.lower theme_name)))
      as [e|] eqn:Hop.
    + destruct (permission_denied e) eqn:Hden.
      * destruct (save_conf_denied env theme_name conf w e Hden) as [_ Hrun].
        rewrite (Hrun Hmk Hop).
        set (evs0 := [Makedirs themes_dir None;
                      OpenWrite (path_join themes_dir (Py.lower theme_name)) conf (Some e);
                      Print ("Error writing stripped theme to " +:+
                             path_join themes_dir (Py.lower theme_name) +:+ ": " +:+
                             strerror e)]).
        destruct (prompt_outcome env theme_name conf (add_trace w evs0))
          as (r & w' & evs & Hp & Htr & Hcmd & _ & Hres).
        exists r, w', (evs0 ++ evs).
        split; [done|]. cbn [add_trace trace] in Htr.
        split; [by rewrite Htr, <- app_assoc|]. split; [done|].
        destruct Hres as [(-> & Hin & ->)|(-> & answer & Hin & Hread)].
        -- split; [cbn; lia|]. right. by repeat split.
        -- split; [change (length (inputs_read evs) <= 1); rewrite Hread; cbn; lia|].
           by left.
      * unfold permission_denied in Hden.
        unfold save_conf_to_ghostty, try_except, os_makedirs, write_file. run_step.
        fold themes_dir. rewrite Hmk. run_step. rewrite Hop. run_step.
        cbn [except_OSError]. run_step. rewrite Hden. run_step.
        do 3 eexists. split; [reflexivity|]. cbn [trace].
        rewrite <- !app_assoc. split; [reflexivity|].
        split; [by left|]. split; [cbn; lia|]. by left.
    + unfold save_conf_to_ghostty, try_except, os_makedirs, write_file. run_step.
      fold themes_dir. rewrite Hmk. run_step. rewrite Hop. run_step.
      do 3 eexists. split; [reflexivity|]. cbn [trace].
      rewrite <- !app_assoc. split; [reflexivity|].
      split; [by left|]. split; [cbn; lia|]. by left.
Qed.

Lemma lower_char_idempotent (c : ascii) :
  Py.lower_char (Py.lower_char c) = Py.lower_char c.
Proof. destruct c as [[] [] [] [] [] [] [] []]; reflexivity. Qed.

Lemma lower_idempotent (s : string) : Py.lower (Py.lower s) = Py.lower s.
Proof.
  unfold Py.lower. induction s as [|c s IH]; [done|].
  cbn [Py.map_chars]. by rewrite lower_char_idempotent, IH.
Qed.

(** X19: the writer looks at the theme name through its lowercased form
    only: names that differ in letter case are written to the same files,
    with the same prompts, commands and diagnostics. *)
Theorem writer_ignores_letter_case (env : Env) (theme_name conf : string) (w : World) :
  save_conf_to_ghostty env theme_name conf w =
  save_conf_to_ghostty env (Py.lower theme_name) conf w.
Proof.
  unfold save_conf_to_ghostty, prompt_and_attempt_sudo_save.
  by rewrite !lower_idempotent.
Qed.

(** ** The whole run *)

Lemma main_start (json_loads : string -> string + json) (json_dump : json -> string)
    (env : Env) (w : World) :
  main json_loads json_dump env w =
  (api_key ← load_api_key env;
   if String.eqb api_key EmptyString then mret tt
   else
     theme_name ← get_theme_name;
     theme_data ← generate_ghostty_theme_json json_loads env api_key theme_name;
     if truthy theme_data then
       save_theme_to_file json_dump env theme_name theme_data;;
       conf_content ← convert_theme_to_conf theme_data;
       save_conf_to_ghostty env theme_name conf_content
     else
       print ("Failed to generate theme data for '" +:+ theme_name +:+ "'."))
    (add_trace w banner).
Proof.
  unfold main. run_step. unfold add_trace, banner. by rewrite <- app_assoc.
Qed.

(** A run that only printed read nothing, asked nothing, wrote nothing. *)
Lemma prints_only (evs : list event) :
  forallb is_print evs = true ->
  inputs_read evs = [] /\ api_calls evs = [] /\ persisting evs = [] /\
  elevated_commands evs = [].
Proof.
  induction evs as [|e evs IH]; [done|]. cbn [forallb].
  intros [He Hevs]%andb_true_iff. destruct (IH Hevs) as (Hi & Ha & Hp & Hc).
  by destruct e.
Qed.

(** X20: without a usable key [main] prints the banner and the error and
    exits with status 1: it reads no input, asks the provider nothing and
    writes nothing. *)
Theorem main_without_key (json_loads : string -> string + json)
    (json_dump : json -> string) (env : Env) (w : World) :
  usable_key (env_api_key env) = false ->
  exists evs,
    main json_loads json_dump env w = (Raise (SystemExit 1), add_trace w evs) /\
    forallb is_print evs = true /\
    inputs_read evs = [] /\ api_calls evs = [] /\ persisting evs = [].
Proof.
  intros Hkey. rewrite main_start.
  destruct (load_api_key_unusable env (add_trace w banner) Hkey)
    as (evs & Hrun & _ & Hpr).
  unfold mbind at 1. unfold M_bind at 1. rewrite Hrun.
  exists (banner ++ evs). rewrite add_trace_app. split; [done|].
  split; [by rewrite forallb_app, Hpr|].
  destruct (prints_only (banner ++ evs)) as (Hi & Ha & Hp & _);
    [by rewrite forallb_app, Hpr|].
  by repeat split.
Qed.

Lemma main_without_key_witness :
  exists evs,
    main (fun _ => inl "no") (fun _ => EmptyString) keyless_env
      {| stdin := ["dungeon"]; files := ∅; trace := [] |} =
      (Raise (SystemExit 1),
       add_trace {| stdin := ["dungeon"]; files := ∅; trace := [] |} evs) /\
    forallb is_print evs = true /\
    inputs_read evs = [] /\ api_calls evs = [] /\ persisting evs = [].
Proof.
  apply (main_without_key (fun _ => inl "no") (fun _ => EmptyString) keyless_env
           {| stdin := ["dungeon"]; files := ∅; trace := [] |}).
  reflexivity.
Defined.

Lemma main_reaches_generation (json_loads : string -> string + json)
    (json_dump : json -> string) (env : Env) (w w2 : World)
    (api_key theme_name : string) :
  env_api_key env = Some api_key ->
  usable_key (Some api_key) = true ->
  get_theme_name (add_trace w banner) = (Ok theme_name, w2) ->
  main json_loads json_dump env w =
  (theme_data ← generate_ghostty_theme_json json_loads env api_key theme_name;
   if truthy theme_data then
     save_theme_to_file json_dump env theme_name theme_data;;
     conf_content ← convert_theme_to_conf theme_data;
     save_conf_to_ghostty env theme_name conf_content
   else
     print ("Failed to generate theme data for '" +:+ theme_name +:+ "'.")) w2 /\
  stdin w2 = stdin w2 /\ files w2 = files w /\
  exists evs, trace w2 = trace w ++ evs /\ persisting evs = [].
Proof.
  intros Hkey Hok Hname. rewrite main_start.
  unfold mbind at 1. unfold M_bind at 1.
  rewrite (load_api_key_usable env _ api_key Hkey Hok).
  unfold usable_key in Hok. apply andb_true_iff in Hok as [Hne%negb_true_iff _].
  rewrite Hne. unfold mbind at 1. unfold M_bind at 1. rewrite Hname.
  split; [reflexivity|]. split; [reflexivity|].
  pose proof Hname as Hq. unfold add_trace in Hq.
  apply get_theme_name_quiet in Hq as [Hfiles [evs [Htrace Hquiet]]].
  cbn [files trace] in Hfiles, Htrace. split; [done|].
  exists (banner ++ evs). split; [by rewrite Htrace, <- app_assoc|].
  unfold persisting in *. by rewrite List.filter_app, Hquiet.
Qed.

Lemma generate_quiet (json_loads : string -> string + json) (env : Env)
    (api_key theme_name : string) (w : World) :
  exists v evs,
    generate_ghostty_theme_json json_loads env api_key theme_name w =
      (Ok v, add_trace w evs) /\
    persisting evs = [] /\
    forall s theme_data,
      env_chat env theme_name = Completed (Some s) ->
      json_loads s = inr theme_data -> v = theme_data.
Proof.
  unfold generate_ghostty_theme_json. run_step.
  destruct (env_chat env theme_name) as [[s|]|msg] eqn:Hchat.
  - destruct (json_loads s) as [msg|theme_data] eqn:Hloads.
    + destruct (String.eqb s EmptyString); cbn [negb]; run_step;
        eexists; eexists; unfold add_trace; rewrite <- !app_assoc;
        (split; [reflexivity|]); (split; [reflexivity|]);
        intros s' d [= <-]; congruence.
    + run_step. eexists. eexists. unfold add_trace. rewrite <- !app_assoc.
      split; [reflexivity|]. split; [reflexivity|].
      intros s' d [= <-]. congruence.
  - run_step. eexists. eexists. unfold add_trace. rewrite <- !app_assoc.
    split; [reflexivity|]. split; [reflexivity|]. by intros s' d [=].
  - run_step. eexists. eexists. unfold add_trace. rewrite <- !app_assoc.
    split; [reflexivity|]. split; [reflexivity|]. by intros s' d [=].
Qed.

(** X21: whenever the generation step yields a falsy value (the call
    failed, the response had no content or did not parse, or it parsed to
    [null], an empty mapping or list, an empty string, zero or [false]),
    [main] prints that the generation failed and returns: no directory is
    created, no file written and no command run. *)
Theorem falsy_generation_skips_persistence
    (json_loads : string -> string + json) (json_dump : json -> string) (env : Env)
    (w w2 w3 : World) (api_key theme_name : string) (v : json) :
  env_api_key env = Some api_key ->
  usable_key (Some api_key) = true ->
  get_theme_name (add_trace w banner) = (Ok theme_name, w2) ->
  generate_ghostty_theme_json json_loads env api_key theme_name w2 = (Ok v, w3) ->
  truthy v = false ->
  exists evs,
    main json_loads json_dump env w =
      (Ok tt, {| stdin := stdin w2; files := files w; trace := trace w ++ evs |}) /\
    persisting evs = [] /\
    last evs = Some (Print ("Failed to generate theme data for '" +:+ theme_name +:+ "'.")).
Proof.
  intros Hkey Hok Hname Hgen Hfalsy.
  destruct (main_reaches_generation json_loads json_dump env w w2 api_key theme_name
              Hkey Hok Hname) as (-> & _ & Hfiles & evs & Htrace & Hquiet).
  destruct (generate_quiet json_loads env api_key theme_name w2)
    as (v' & gevs & Hgen' & Hgquiet & _).
  rewrite Hgen in Hgen'. injection Hgen' as -> ->.
  unfold mbind at 1. unfold M_bind at 1. rewrite Hgen, Hfalsy. run_step.
  exists (evs ++ gevs ++
          [Print ("Failed to generate theme data for '" +:+ theme_name +:+ "'.")]).
  split.
  - cbn [add_trace stdin files trace]. rewrite Hfiles, Htrace.
    by rewrite <- !app_assoc.
  - split.
    + unfold persisting in *. by rewrite !List.filter_app, Hquiet, Hgquiet.
    + rewrite !app_assoc. by rewrite last_snoc.
Qed.

Lemma falsy_generation_skips_persistence_witness :
  exists evs,
    main (fun _ => inr (JObj [])) (fun _ => EmptyString) open_env
      {| stdin := ["dungeon"]; files := ∅; trace := [] |} =
      (Ok tt, {| stdin := []; files := ∅; trace := [] ++ evs |}) /\
    persisting evs = [] /\
    last evs = Some (Print ("Failed to generate theme data for '" +:+ "dungeon" +:+ "'.")).
Proof.
  apply (falsy_generation_skips_persistence
           (fun _ => inr (JObj [])) (fun _ => EmptyString) open_env
           {| stdin := ["dungeon"]; files := ∅; trace := [] |}
           {| stdin := []; files := ∅;
              trace := banner ++ [Input name_prompt "dungeon"] |}
           (snd (generate_ghostty_theme_json (fun _ => inr (JObj [])) open_env
                   "sk-test" "dungeon"
                   {| stdin := []; files := ∅;
                      trace := banner ++ [Input name_prompt "dungeon"] |}))
           "sk-test" "dungeon" (JObj [])); reflexivity.
Defined.

Lemma generate_parsed (json_loads : string -> string + json) (env : Env)
    (api_key theme_name s : string) (theme_data : json) (w : World) :
  env_chat env theme_name = Completed (Some s) ->
  json_loads s = inr theme_data ->
  generate_ghostty_theme_json json_loads env api_key theme_name w =
  (Ok theme_data,
   add_trace w [Print (nl +:+ "Generating theme '" +:+ theme_name +:+
                       "' using OpenAI GPT-4o...");
                ApiCall theme_name;
                Print "Theme JSON successfully generated and parsed."]).
Proof.
  intros Hchat Hloads. unfold generate_ghostty_theme_json. run_step.
  rewrite Hchat, Hloads. run_step. unfold add_trace. by rewrite <- !app_assoc.
Qed.

Lemma save_theme_to_file_returns (json_dump : json -> string) (env : Env)
    (theme_name : string) (theme_data : json) (w : World) :
  exists w', save_theme_to_file json_dump env theme_name theme_data w = (Ok tt, w').
Proof.
  unfold save_theme_to_file, try_except, os_makedirs, write_file. run_step.
  destruct (env_makedirs env (path_join "themes" "ghostty")) as [e|]; run_step.
  - cbn [except_OSError]. run_step. by eexists.
  - destruct (env_open_w env _) as [e|]; run_step.
    + cbn [except_OSError]. run_step. by eexists.
    + by eexists.
Qed.







Lemma convert_not_mapping (theme_data : json) (w : World) :
  mapping_document theme_data = false ->
  convert_theme_to_conf theme_data w = (Raise AttributeError, w).
Proof.
  destruct theme_data as [| | | | |m]; try reflexivity.
  unfold mapping_document.
  destruct (palette_of m) as [| | | | |palette] eqn:Hp; try done; intros _;
    unfold convert_theme_to_conf, py_get; fold (palette_of m); rewrite Hp;
    run_step; by rewrite palette_loop_not_mapping.
Qed.

(** X23: when the response parses to a truthy value that the converter
    cannot read (a list, a number, a string, or a mapping whose [palette] is
    not a mapping), [main] saves the JSON file and then ends with the
    [AttributeError] of the converter: the run stops there, before the
    writer, so the flat file is never written and the operator never
    asked. *)
Theorem main_stops_on_unreadable_value
    (json_loads : string -> string + json) (json_dump : json -> string) (env : Env)
    (w w2 : World) (api_key theme_name s : string) (v : json) :
  env_api_key env = Some api_key ->
  usable_key (Some api_key) = true ->
  get_theme_name (add_trace w banner) = (Ok theme_name, w2) ->
  env_chat env theme_name = Completed (Some s) ->
  json_loads s = inr v ->
  truthy v = true ->
  mapping_document v = false ->
  exists w3,
    generate_ghostty_theme_json json_loads env api_key theme_name w2 = (Ok v, w3) /\
    main json_loads json_dump env w =
      (Raise AttributeError, snd (save_theme_to_file json_dump env theme_name v w3)).
Proof.
  intros Hkey Hok Hname Hchat Hloads Htruthy Hnot.
  destruct (main_reaches_generation json_loads json_dump env w w2 api_key theme_name
              Hkey Hok Hname) as (-> & _).
  eexists. split; [by apply (generate_parsed json_loads env api_key theme_name s)|].
  unfold mbind at 1. unfold M_bind at 1.
  rewrite (generate_parsed json_loads env api_key theme_name s v) by done.
  rewrite Htruthy.
  unfold mbind at 1. unfold M_bind at 1.
  destruct (save_theme_to_file_returns json_dump env theme_name v
              (add_trace w2 [Print (nl +:+ "Generating theme '" +:+ theme_name +:+
                                    "' using OpenAI GPT-4o...");
                             ApiCall theme_name;
                             Print "Theme JSON successfully generated and parsed."]))
    as [w' Hsave].
  rewrite Hsave. cbn [snd].
  unfold mbind at 1. unfold M_bind at 1.
  by rewrite convert_not_mapping.
Qed.


Lemma main_stops_on_unreadable_value_witness :
  exists w3,
    generate_ghostty_theme_json (fun _ => inr (JArr [JInt 1])) open_env
      "sk-test" "dungeon"
      {| stdin := []; files := ∅; trace := banner ++ [Input name_prompt "dungeon"] |}
      = (Ok (JArr [JInt 1]), w3) /\
    main (fun _ => inr (JArr [JInt 1])) (fun _ => "[1]") open_env
      {| stdin := ["dungeon"]; files := ∅; trace := [] |} =
      (Raise AttributeError,
       snd (save_theme_to_file (fun _ => "[1]") open_env "dungeon" (JArr [JInt 1]) w3)).
Proof.
  apply (main_stops_on_unreadable_value
           (fun _ => inr (JArr [JInt 1])) (fun _ => "[1]") open_env
           {| stdin := ["dungeon"]; files := ∅; trace := [] |}
           {| stdin := []; files := ∅;
              trace := banner ++ [Input name_prompt "dungeon"] |}
           "sk-test" "dungeon" "{}" (JArr [JInt 1])); reflexivity.
Defined.

(** ** More on the converter *)

Lemma filter_only_index (k : nat) :
  k < 16 -> List.filter (fun i => Nat.eqb i k) (seq 0 16) = [k].
Proof. intros Hk. do 16 (destruct k as [|k]; [reflexivity|]). lia. Qed.

(** X24: when exactly one index [k] of the palette is absent (or falsy), the
    converter emits the 15 other palette lines in ascending order, then the
    other keys, and logs exactly one warning, the one for [k]. *)
Theorem convert_one_missing_index (theme_data palette : dict) (k : nat) (w : World) :
  palette_of theme_data = JObj palette ->
  k < 16 ->
  truthy (hex_code_of palette k) = false ->
  (forall i, i < 16 -> i <> k -> truthy (hex_code_of palette i) = true) ->
  convert_theme_to_conf (JObj theme_data) w =
  (Ok (Py.join nl
         (map (fun i => palette_line i (hex_code_of palette i))
              (List.filter (fun i => negb (Nat.eqb i k)) (seq 0 16)) ++
          scalar_lines theme_data) +:+ nl),
   add_trace w [Print (palette_warning k)]) /\
  length (List.filter (fun i => negb (Nat.eqb i k)) (seq 0 16)) = 15.
Proof.
  intros Hp Hk Hmissing Hothers.
  assert (forall i, In i (seq 0 16) ->
            truthy (hex_code_of palette i) = negb (Nat.eqb i k)) as Hsame.
  { intros i Hi%in_seq. destruct (Nat.eqb i k) eqn:Hik.
    - by apply Nat.eqb_eq in Hik as ->.
    - apply Nat.eqb_neq in Hik. apply Hothers; [lia|done]. }
  split.
  - rewrite (convert_run theme_data palette) by done.
    destruct (palette_loop_filter palette (seq 0 16)) as [-> ->].
    rewrite (List.filter_ext_in _ (fun i => negb (Nat.eqb i k)) (seq 0 16) Hsame).
    rewrite (List.filter_ext_in (fun i => negb (truthy (hex_code_of palette i)))
               (fun i => Nat.eqb i k) (seq 0 16)).
    + by rewrite filter_only_index.
    + intros i Hi. rewrite (Hsame i Hi). apply negb_involutive.
  - clear -Hk. do 16 (destruct k as [|k]; [reflexivity|]). lia.
Qed.

Lemma convert_one_missing_index_witness :
  convert_theme_to_conf (JObj [("palette", JObj (dict_del full_palette "7"))])
    empty_world =
  (Ok (Py.join nl
         (map (fun i => palette_line i (hex_code_of (dict_del full_palette "7") i))
              (List.filter (fun i => negb (Nat.eqb i 7)) (seq 0 16)) ++
          scalar_lines [("palette", JObj (dict_del full_palette "7"))]) +:+ nl),
   add_trace empty_world [Print (palette_warning 7)]) /\
  length (List.filter (fun i => negb (Nat.eqb i 7)) (seq 0 16)) = 15.
Proof.
  apply (convert_one_missing_index [("palette", JObj (dict_del full_palette "7"))]
           (dict_del full_palette "7") 7 empty_world).
  - reflexivity.
  - lia.
  - reflexivity.
  - intros i Hi Hne. do 16 (destruct i as [|i]; [first [reflexivity | lia]|]). lia.
Defined.

Lemma filter_not_palette_app (m1 m2 : dict) :
  scalar_lines (m1 ++ m2) = scalar_lines m1 ++ scalar_lines m2.
Proof. unfold scalar_lines. by rewrite List.filter_app, map_app. Qed.

(** X25: where the [palette] key stands among the top-level keys does not
    matter: the palette lines always come first, and a document with the
    [palette] entry in the middle converts exactly like the one with that
    entry moved to the front. *)
Theorem convert_palette_position (items1 items2 : dict) (p : json) (w : World) :
  dict_get items1 "palette" = None ->
  convert_theme_to_conf (JObj (items1 ++ ("palette", p) :: items2)) w =
  convert_theme_to_conf (JObj (("palette", p) :: items1 ++ items2)) w.
Proof.
  intros Hnone.
  assert (palette_of (items1 ++ ("palette", p) :: items2) = p) as Hp1.
  { unfold palette_of. rewrite dict_get_app, Hnone. reflexivity. }
  assert (palette_of (("palette", p) :: items1 ++ items2) = p) as Hp2 by reflexivity.
  assert (scalar_lines (items1 ++ ("palette", p) :: items2) =
          scalar_lines (("palette", p) :: items1 ++ items2)) as Hs.
  { change (("palette", p) :: items2) with ([("palette", p)] ++ items2).
    change (("palette", p) :: items1 ++ items2)
      with ([("palette", p)] ++ items1 ++ items2).
    by rewrite !filter_not_palette_app. }
  destruct p as [| | | | |palette];
    try (rewrite !convert_not_mapping;
         [reflexivity | unfold mapping_document; by rewrite Hp2
                      | unfold mapping_document; by rewrite Hp1]).
  rewrite (convert_run _ palette w Hp1), (convert_run _ palette w Hp2).
  by rewrite Hs.
Qed.

Lemma convert_palette_position_witness :
  convert_theme_to_conf (JObj tomorrow_document) empty_world =
  convert_theme_to_conf
    (JObj (("palette", JObj full_palette) ::
           [("background", JStr "#1d1f21")] ++ [("cursor-color", JStr "#c5c8c6")]))
    empty_world.
Proof.
  apply (convert_palette_position [("background", JStr "#1d1f21")]
           [("cursor-color", JStr "#c5c8c6")] (JObj full_palette) empty_world).
  reflexivity.
Defined.
